(** * prime-print: schema, row-level security and triggers

    A shallow embedding of the SQL migration of the print-shop
    application (tables [profiles], [merchants], [print_orders], their
    row-level-security policies, the two trigger functions and the
    policies of the [print-files] storage bucket), together with the
    part of PostgreSQL's semantics these declarations rely on:

    - SQL's three-valued logic: a comparison with NULL is NULL, and a
      policy lets a row through only when its expression is TRUE;
    - row-level security: the permissive policies of a command are
      combined with OR; an UPDATE policy without WITH CHECK uses its
      USING expression for the new row as well; a command that also
      reads the table (WHERE, RETURNING) is subject to the SELECT
      policies, on the existing row and on the new row;
    - a policy expression runs with the rights of the role that issued
      the query, so a sub-select inside a policy sees the table it
      names through that table's own SELECT policies;
    - a statement that raises an error is rolled back as a whole. *)

From Stdlib Require Import ZArith Lia Ascii String.
From stdpp Require Import base option strings list gmap pretty.

Local Open Scope Z_scope.
Local Open Scope string_scope.
Local Open Scope list_scope.

(** ** SQL values *)

Module Sql.

(** A truth value of SQL: [Some true], [Some false], or [None] for NULL. *)
Definition tri := option bool.

(** [x = y] in SQL: NULL as soon as one side is NULL. *)
Definition eq {A} `{EqDecision A} (x y : option A) : tri :=
  match x, y with
  | Some a, Some b => Some (bool_decide (a = b))
  | _, _ => None
  end.

(** [a AND b] in SQL. *)
Definition and (a b : tri) : tri :=
  match a, b with
  | Some false, _ | _, Some false => Some false
  | Some true, Some true => Some true
  | _, _ => None
  end.

(** A row qualifies only when the expression is TRUE (not FALSE, not NULL). *)
Definition holds (t : tri) : bool :=
  match t with Some true => true | _ => false end.

(** [COALESCE(x, d)] with a non-null last argument. *)
Definition coalesce {A} (x : option A) (d : A) : A := default d x.

End Sql.

(** ** Errors and the statement monad *)

Inductive error :=
  | not_null_violation (column : string)
  | check_violation (constraint : string)
  | unique_violation (constraint : string)
  | foreign_key_violation (constraint : string)
  | invalid_text_representation (type_name : string)
  | numeric_value_out_of_range
  | row_security_violation (table : string).

Inductive result (A : Type) :=
  | Ok (a : A)
  | Err (e : error).
Arguments Ok {A} a.
Arguments Err {A} e.

#[global] Instance result_ret : MRet result := fun A a => Ok a.

#[global] Instance result_bind : MBind result := fun A B k r =>
  match r with Ok a => k a | Err e => Err e end.

Definition guard (b : bool) (e : error) : result unit :=
  if b then Ok tt else Err e.

(** A statement over several rows fails as soon as one row fails. *)
Fixpoint for_each {A B} (f : A -> result B) (l : list A) : result (list B) :=
  match l with
  | [] => Ok []
  | a :: l' => b ← f a; bs ← for_each f l'; Ok (b :: bs)
  end.

(** ** Column types *)

(** A UUID is kept as its canonical text, which is what [::text] yields;
    two UUIDs are equal exactly when their canonical texts are. *)
Definition uuid := string.

(** TIMESTAMPTZ: microseconds since the epoch. *)
Definition timestamptz := Z.

(** [CREATE TYPE public.app_role AS ENUM ('user', 'merchant')] *)
Inductive app_role := user | merchant.

(** The input function of the enum: only the two labels are accepted. *)
Definition app_role_in (s : string) : result app_role :=
  if String.eqb s "user" then Ok user
  else if String.eqb s "merchant" then Ok merchant
  else Err (invalid_text_representation "app_role").

(** [(t)::app_role]: NULL casts to NULL, a text goes through the input function. *)
Definition cast_app_role (t : option string) : result (option app_role) :=
  match t with
  | None => Ok None
  | Some s => r ← app_role_in s; Ok (Some r)
  end.

(** INTEGER is a 32-bit signed integer. *)
Definition int4_in_range (z : Z) : bool :=
  ((-2147483648 <=? z) && (z <=? 2147483647))%Z.

(** A column of an INSERT or of an UPDATE's SET list: left out, or given
    a value that may be NULL. *)
Inductive supplied (A : Type) :=
  | Omitted
  | Given (v : option A).
Arguments Omitted {A}.
Arguments Given {A} v.

(** INSERT: an omitted column takes its DEFAULT (NULL when it has none). *)
Definition or_default {A} (dflt : option A) (s : supplied A) : option A :=
  match s with Omitted => dflt | Given v => v end.

(** UPDATE: an unassigned column keeps the old value. *)
Definition or_old {A} (old : option A) (s : supplied A) : option A :=
  match s with Omitted => old | Given v => v end.

(** NOT NULL *)
Definition not_null {A} (column : string) (v : option A) : result A :=
  match v with Some a => Ok a | None => Err (not_null_violation column) end.

Definition int4 (v : option Z) : result (option Z) :=
  match v with
  | None => Ok None
  | Some z => if int4_in_range z then Ok (Some z) else Err numeric_value_out_of_range
  end.

(** ** Tables *)

(** [auth.users] belongs to the identity provider; the trigger reads
    three of its columns.  [raw_user_meta_data] is a JSON object, kept as
    a map from key to value. *)
Inductive json :=
  | JNull
  | JString (s : string)
  | JOther (text : string).   (* any non-string value, as its JSON text *)

(** [obj ->> key]: the field as text; NULL when the object is NULL, the
    key is absent or the field is JSON null. *)
Definition get_text (obj : option (gmap string json)) (key : string) : option string :=
  match obj with
  | None => None
  | Some o =>
      match o !! key with
      | None | Some JNull => None
      | Some (JString s) => Some s
      | Some (JOther t) => Some t
      end
  end.

Module auth_users.
Record row := {
  id : uuid;
  email : option string;
  raw_user_meta_data : option (gmap string json)
}.
End auth_users.

Module profiles.
Record row := {
  id : uuid;
  email : string;
  full_name : option string;
  role : app_role;
  created_at : timestamptz
}.
End profiles.

Module merchants.
Record row := {
  id : uuid;
  user_id : uuid;
  shop_name : string;
  description : option string;
  location : option string;
  is_active : bool;
  created_at : timestamptz
}.

(** A tuple before its constraints are checked: every column may be NULL. *)
Record tuple := {
  t_id : option uuid;
  t_user_id : option uuid;
  t_shop_name : option string;
  t_description : option string;
  t_location : option string;
  t_is_active : option bool;
  t_created_at : option timestamptz
}.

(** The columns of a statement. *)
Record values := {
  v_id : supplied uuid;
  v_user_id : supplied uuid;
  v_shop_name : supplied string;
  v_description : supplied string;
  v_location : supplied string;
  v_is_active : supplied bool;
  v_created_at : supplied timestamptz
}.
End merchants.

Module print_orders.
Record row := {
  id : uuid;
  user_id : uuid;
  merchant_id : uuid;
  file_name : string;
  file_url : string;
  file_size : option Z;
  pages : option Z;
  copies : Z;
  notes : option string;
  status : string;
  created_at : timestamptz;
  updated_at : timestamptz
}.

(** A tuple before its constraints are checked: every column may be NULL. *)
Record tuple := {
  t_id : option uuid;
  t_user_id : option uuid;
  t_merchant_id : option uuid;
  t_file_name : option string;
  t_file_url : option string;
  t_file_size : option Z;
  t_pages : option Z;
  t_copies : option Z;
  t_notes : option string;
  t_status : option string;
  t_created_at : option timestamptz;
  t_updated_at : option timestamptz
}.

Record values := {
  v_id : supplied uuid;
  v_user_id : supplied uuid;
  v_merchant_id : supplied uuid;
  v_file_name : supplied string;
  v_file_url : supplied string;
  v_file_size : supplied Z;
  v_pages : supplied Z;
  v_copies : supplied Z;
  v_notes : supplied string;
  v_status : supplied string;
  v_created_at : supplied timestamptz;
  v_updated_at : supplied timestamptz
}.
End print_orders.

(** [storage.objects] belongs to the storage service; the policies read
    the bucket and the object name (its key inside the bucket). *)
Module storage_objects.
Record row := {
  bucket_id : string;
  name : string
}.
End storage_objects.

Record database := {
  db_users : list auth_users.row;
  db_profiles : list profiles.row;
  db_merchants : list merchants.row;
  db_print_orders : list print_orders.row;
  db_objects : list storage_objects.row
}.

Definition empty_db : database :=
  {| db_users := []; db_profiles := []; db_merchants := [];
     db_print_orders := []; db_objects := [] |}.

(** A failed statement is rolled back: the database stays as it was. *)
Definition commit (db : database) (r : result database) : database :=
  match r with Ok db' => db' | Err _ => db end.

(** ** Row-level security *)

Inductive command := SELECT | INSERT | UPDATE | DELETE.

#[global] Instance command_eq_dec : EqDecision command.
Proof. solve_decision. Defined.

Section RowSecurity.
Context {R : Type}.

(** A policy expression sees the database, [auth.uid()] (NULL for a
    request without identity) and the row. *)
Definition expr := database -> option uuid -> R -> Sql.tri.

Record policy := {
  pol_name : string;
  pol_cmd : command;
  pol_using : option expr;
  pol_with_check : option expr
}.

(** The expression checked on a new row: WITH CHECK when the policy has
    one, else USING; [force_using] takes USING regardless (a SELECT
    policy applied to a row being written). *)
Definition qual_for_wco (force_using : bool) (p : policy) : option expr :=
  if force_using then pol_using p
  else match pol_with_check p with
       | Some e => Some e
       | None => pol_using p
       end.

Definition passes (q : option expr) (db : database) (uid : option uuid) (r : R) : bool :=
  match q with
  | Some e => Sql.holds (e db uid r)
  | None => false
  end.

(** The security qualification of command [c]: the USING expressions of
    its permissive policies, OR-ed; FALSE when there is none. *)
Definition security_qual (ps : list policy) (c : command)
    (db : database) (uid : option uuid) (r : R) : bool :=
  existsb (fun p => bool_decide (pol_cmd p = c) && passes (pol_using p) db uid r) ps.

Definition with_check_option (ps : list policy) (c : command) (force_using : bool)
    (db : database) (uid : option uuid) (r : R) : bool :=
  existsb (fun p => bool_decide (pol_cmd p = c) && passes (qual_for_wco force_using p) db uid r) ps.

(** SELECT returns the row. *)
Definition select_allowed (ps : list policy) db uid (r : R) : bool :=
  security_qual ps SELECT db uid r.

(** INSERT of [new]; [reads] when the statement has RETURNING. *)
Definition insert_allowed (ps : list policy) db uid (reads : bool) (new : R) : bool :=
  with_check_option ps INSERT false db uid new
  && (if reads then with_check_option ps SELECT true db uid new else true).

(** UPDATE can operate on the existing row [old]; [reads] when the
    statement has a WHERE or RETURNING clause over the table. *)
Definition update_targets (ps : list policy) db uid (reads : bool) (old : R) : bool :=
  security_qual ps UPDATE db uid old
  && (if reads then security_qual ps SELECT db uid old else true).

(** ... and the modified row [new] may be stored back. *)
Definition update_stores (ps : list policy) db uid (reads : bool) (new : R) : bool :=
  with_check_option ps UPDATE false db uid new
  && (if reads then with_check_option ps SELECT true db uid new else true).

Definition update_allowed (ps : list policy) db uid (reads : bool) (old new : R) : bool :=
  update_targets ps db uid reads old && update_stores ps db uid reads new.

End RowSecurity.
Arguments expr R : clear implicits.
Arguments policy R : clear implicits.

(** ** Policies of [public.merchants] *)

Definition merchants_policies : list (policy merchants.row) :=
  [ {| pol_name := "Anyone can view active merchants";
       pol_cmd := SELECT;
       pol_using := Some (fun _ _ m => Sql.eq (Some (merchants.is_active m)) (Some true));
       pol_with_check := None |};
    {| pol_name := "Merchant owners can update their shop";
       pol_cmd := UPDATE;
       pol_using := Some (fun _ uid m => Sql.eq uid (Some (merchants.user_id m)));
       pol_with_check := None |};
    {| pol_name := "Users can create merchant profile";
       pol_cmd := INSERT;
       pol_using := None;
       pol_with_check := Some (fun _ uid m => Sql.eq uid (Some (merchants.user_id m))) |} ].

(** The rows of [merchants] a query of [uid] ranges over. *)
Definition visible_merchants (db : database) (uid : option uuid) : list merchants.row :=
  List.filter (select_allowed merchants_policies db uid) (db_merchants db).


(** ** Policies of [public.profiles] *)

Definition profiles_policies : list (policy profiles.row) :=
  [ {| pol_name := "Users can view their own profile";
       pol_cmd := SELECT;
       pol_using := Some (fun _ uid p => Sql.eq uid (Some (profiles.id p)));
       pol_with_check := None |};
    {| pol_name := "Users can update their own profile";
       pol_cmd := UPDATE;
       pol_using := Some (fun _ uid p => Sql.eq uid (Some (profiles.id p)));
       pol_with_check := None |};
    {| pol_name := "Users can insert their own profile";
       pol_cmd := INSERT;
       pol_using := None;
       pol_with_check := Some (fun _ uid p => Sql.eq uid (Some (profiles.id p))) |} ].

(** ** Policies of [public.print_orders] *)

(** [EXISTS (SELECT 1 FROM public.merchants
             WHERE merchants.id = print_orders.merchant_id
             AND merchants.user_id = auth.uid())]

    The sub-select is part of the caller's query and [merchants] has
    row-level security enabled, so it ranges over [visible_merchants],
    the rows that "Anyone can view active merchants" lets the caller
    read, not over the whole table. *)
Definition owns_target_merchant : expr print_orders.row := fun db uid po =>
  Some (existsb
          (fun m => Sql.holds
             (Sql.and (Sql.eq (Some (merchants.id m)) (Some (print_orders.merchant_id po)))
                      (Sql.eq (Some (merchants.user_id m)) uid)))
          (visible_merchants db uid)).

Definition print_orders_policies : list (policy print_orders.row) :=
  [ {| pol_name := "Users can view their own orders";
       pol_cmd := SELECT;
       pol_using := Some (fun _ uid po => Sql.eq uid (Some (print_orders.user_id po)));
       pol_with_check := None |};
    {| pol_name := "Merchants can view orders sent to them";
       pol_cmd := SELECT;
       pol_using := Some owns_target_merchant;
       pol_with_check := None |};
    {| pol_name := "Users can create orders";
       pol_cmd := INSERT;
       pol_using := None;
       pol_with_check := Some (fun _ uid po => Sql.eq uid (Some (print_orders.user_id po))) |};
    {| pol_name := "Users can update their own orders";
       pol_cmd := UPDATE;
       pol_using := Some (fun _ uid po => Sql.eq uid (Some (print_orders.user_id po)));
       pol_with_check := None |};
    {| pol_name := "Merchants can update orders sent to them";
       pol_cmd := UPDATE;
       pol_using := Some owns_target_merchant;
       pol_with_check := None |} ].

(** The rows of [print_orders] a query of [uid] ranges over. *)
Definition visible_print_orders (db : database) (uid : option uuid) : list print_orders.row :=
  List.filter (select_allowed print_orders_policies db uid) (db_print_orders db).

(** ** Statements *)

Definition set_users (db : database) (l : list auth_users.row) : database :=
  {| db_users := l; db_profiles := db_profiles db; db_merchants := db_merchants db;
     db_print_orders := db_print_orders db; db_objects := db_objects db |}.

Definition set_profiles (db : database) (l : list profiles.row) : database :=
  {| db_users := db_users db; db_profiles := l; db_merchants := db_merchants db;
     db_print_orders := db_print_orders db; db_objects := db_objects db |}.

Definition set_merchants (db : database) (l : list merchants.row) : database :=
  {| db_users := db_users db; db_profiles := db_profiles db; db_merchants := l;
     db_print_orders := db_print_orders db; db_objects := db_objects db |}.

Definition set_print_orders (db : database) (l : list print_orders.row) : database :=
  {| db_users := db_users db; db_profiles := db_profiles db; db_merchants := db_merchants db;
     db_print_orders := l; db_objects := db_objects db |}.

Definition set_objects (db : database) (l : list storage_objects.row) : database :=
  {| db_users := db_users db; db_profiles := db_profiles db; db_merchants := db_merchants db;
     db_print_orders := db_print_orders db; db_objects := l |}.

(** An UPDATE statement: its SET list, its WHERE clause if any, and
    whether it has a RETURNING clause. *)
Record update_stmt (R V : Type) := {
  upd_set : V;
  upd_where : option (R -> bool);
  upd_returning : bool
}.
Arguments upd_set {R V} _.
Arguments upd_where {R V} _.
Arguments upd_returning {R V} _.

(** The statement needs SELECT rights on the table. *)
Definition upd_reads {R V} (st : update_stmt R V) : bool :=
  match upd_where st with Some _ => true | None => upd_returning st end.

Definition upd_matches {R V} (st : update_stmt R V) (r : R) : bool :=
  match upd_where st with Some w => w r | None => true end.

(** *** [profiles] and the identity trigger *)

(** [INSERT INTO public.profiles (id, email, full_name, role) VALUES (...)]
    issued by the table's owner (no row-level security): NOT NULL
    columns, DEFAULT now() for [created_at], primary key, foreign key to
    [auth.users]. *)
Definition profiles_insert (now : timestamptz) (db : database)
    (id : option uuid) (email full_name : option string) (role : option app_role)
    : result database :=
  id' ← not_null "id" id;
  email' ← not_null "email" email;
  role' ← not_null "role" role;
  let r := {| profiles.id := id'; profiles.email := email';
              profiles.full_name := full_name; profiles.role := role';
              profiles.created_at := now |} in
  _ ← guard (negb (existsb (fun p => bool_decide (profiles.id p = id')) (db_profiles db)))
            (unique_violation "profiles_pkey");
  _ ← guard (existsb (fun u => bool_decide (auth_users.id u = id')) (db_users db))
            (foreign_key_violation "profiles_id_fkey");
  Ok (set_profiles db (db_profiles db ++ [r])).

(** [public.handle_new_user()], SECURITY DEFINER.  The VALUES list is
    evaluated first, so a role text that is not a label of [app_role]
    raises before anything is inserted. *)
Definition handle_new_user (now : timestamptz) (db : database) (NEW : auth_users.row)
    : result database :=
  let meta := auth_users.raw_user_meta_data NEW in
  role ← cast_app_role (get_text meta "role");
  profiles_insert now db
    (Some (auth_users.id NEW))
    (auth_users.email NEW)
    (Some (Sql.coalesce (get_text meta "full_name") ""))
    (Some (Sql.coalesce role user)).

(** [CREATE TRIGGER on_auth_user_created AFTER INSERT ON auth.users
     FOR EACH ROW EXECUTE FUNCTION public.handle_new_user()] *)
Definition on_auth_user_created := handle_new_user.

(** The identity provider inserts a row of [auth.users]; the trigger runs
    in the same transaction, after the row is in the table. *)
Definition auth_users_insert (now : timestamptz) (db : database) (NEW : auth_users.row)
    : result database :=
  _ ← guard (negb (existsb (fun u => bool_decide (auth_users.id u = auth_users.id NEW)) (db_users db)))
            (unique_violation "users_pkey");
  on_auth_user_created now (set_users db (db_users db ++ [NEW])) NEW.

(** The identity provider deletes a user.  ON DELETE CASCADE takes the
    profile with it, the profile's shop and orders, and the orders
    addressed to that shop. *)
Definition auth_users_delete (db : database) (id : uuid) : database :=
  let shops := List.filter (fun m => negb (bool_decide (merchants.user_id m = id))) (db_merchants db) in
  {| db_users := List.filter (fun u => negb (bool_decide (auth_users.id u = id))) (db_users db);
     db_profiles := List.filter (fun p => negb (bool_decide (profiles.id p = id))) (db_profiles db);
     db_merchants := shops;
     db_print_orders :=
       List.filter (fun po => negb (bool_decide (print_orders.user_id po = id))
                              && existsb (fun m => bool_decide (merchants.id m = print_orders.merchant_id po))
                                         shops)
                   (db_print_orders db);
     db_objects := db_objects db |}.

(** *** [merchants] *)

Definition merchants_defaults (now : timestamptz) (gen_random_uuid : uuid)
    (v : merchants.values) : merchants.tuple :=
  {| merchants.t_id := or_default (Some gen_random_uuid) (merchants.v_id v);
     merchants.t_user_id := or_default None (merchants.v_user_id v);
     merchants.t_shop_name := or_default None (merchants.v_shop_name v);
     merchants.t_description := or_default None (merchants.v_description v);
     merchants.t_location := or_default None (merchants.v_location v);
     merchants.t_is_active := or_default (Some true) (merchants.v_is_active v);
     merchants.t_created_at := or_default (Some now) (merchants.v_created_at v) |}.

Definition merchants_assign (old : merchants.row) (v : merchants.values) : merchants.tuple :=
  {| merchants.t_id := or_old (Some (merchants.id old)) (merchants.v_id v);
     merchants.t_user_id := or_old (Some (merchants.user_id old)) (merchants.v_user_id v);
     merchants.t_shop_name := or_old (Some (merchants.shop_name old)) (merchants.v_shop_name v);
     merchants.t_description := or_old (merchants.description old) (merchants.v_description v);
     merchants.t_location := or_old (merchants.location old) (merchants.v_location v);
     merchants.t_is_active := or_old (Some (merchants.is_active old)) (merchants.v_is_active v);
     merchants.t_created_at := or_old (Some (merchants.created_at old)) (merchants.v_created_at v) |}.

(** The NOT NULL columns of [merchants]. *)
Definition merchants_not_null (t : merchants.tuple) : result merchants.row :=
  id ← not_null "id" (merchants.t_id t);
  user_id ← not_null "user_id" (merchants.t_user_id t);
  shop_name ← not_null "shop_name" (merchants.t_shop_name t);
  is_active ← not_null "is_active" (merchants.t_is_active t);
  created_at ← not_null "created_at" (merchants.t_created_at t);
  Ok {| merchants.id := id; merchants.user_id := user_id;
        merchants.shop_name := shop_name;
        merchants.description := merchants.t_description t;
        merchants.location := merchants.t_location t;
        merchants.is_active := is_active; merchants.created_at := created_at |}.

(** PRIMARY KEY (id), UNIQUE (user_id), and the foreign key to [profiles]. *)
Definition merchants_keys (db : database) (rows : list merchants.row) : result unit :=
  _ ← guard (bool_decide (NoDup (merchants.id <$> rows))) (unique_violation "merchants_pkey");
  _ ← guard (bool_decide (NoDup (merchants.user_id <$> rows)))
            (unique_violation "merchants_user_id_key");
  guard (forallb (fun m => existsb (fun p => bool_decide (profiles.id p = merchants.user_id m))
                                   (db_profiles db)) rows)
        (foreign_key_violation "merchants_user_id_fkey").

Definition merchants_insert (now : timestamptz) (gen_random_uuid : uuid) (db : database)
    (uid : option uuid) (returning : bool) (v : merchants.values) : result database :=
  r ← merchants_not_null (merchants_defaults now gen_random_uuid v);
  _ ← guard (insert_allowed merchants_policies db uid returning r)
            (row_security_violation "merchants");
  let rows := (db_merchants db ++ [r])%list in
  _ ← merchants_keys db rows;
  Ok (set_merchants db rows).

Definition merchants_update_row (db : database) (uid : option uuid)
    (st : update_stmt merchants.row merchants.values) (old : merchants.row)
    : result merchants.row :=
  if upd_matches st old && update_targets merchants_policies db uid (upd_reads st) old then
    r ← merchants_not_null (merchants_assign old (upd_set st));
    _ ← guard (update_stores merchants_policies db uid (upd_reads st) r)
              (row_security_violation "merchants");
    Ok r
  else Ok old.

Definition merchants_update (db : database) (uid : option uuid)
    (st : update_stmt merchants.row merchants.values) : result database :=
  rows ← for_each (merchants_update_row db uid st) (db_merchants db);
  _ ← merchants_keys db rows;
  _ ← guard (forallb (fun po => existsb (fun m => bool_decide (merchants.id m = print_orders.merchant_id po))
                                        rows) (db_print_orders db))
            (foreign_key_violation "print_orders_merchant_id_fkey");
  Ok (set_merchants db rows).

(** *** [print_orders] *)

Definition print_orders_defaults (now : timestamptz) (gen_random_uuid : uuid)
    (v : print_orders.values) : print_orders.tuple :=
  {| print_orders.t_id := or_default (Some gen_random_uuid) (print_orders.v_id v);
     print_orders.t_user_id := or_default None (print_orders.v_user_id v);
     print_orders.t_merchant_id := or_default None (print_orders.v_merchant_id v);
     print_orders.t_file_name := or_default None (print_orders.v_file_name v);
     print_orders.t_file_url := or_default None (print_orders.v_file_url v);
     print_orders.t_file_size := or_default None (print_orders.v_file_size v);
     print_orders.t_pages := or_default (Some 1) (print_orders.v_pages v);
     print_orders.t_copies := or_default (Some 1) (print_orders.v_copies v);
     print_orders.t_notes := or_default None (print_orders.v_notes v);
     print_orders.t_status := or_default (Some "pending") (print_orders.v_status v);
     print_orders.t_created_at := or_default (Some now) (print_orders.v_created_at v);
     print_orders.t_updated_at := or_default (Some now) (print_orders.v_updated_at v) |}.

Definition print_orders_assign (old : print_orders.row) (v : print_orders.values)
    : print_orders.tuple :=
  {| print_orders.t_id := or_old (Some (print_orders.id old)) (print_orders.v_id v);
     print_orders.t_user_id := or_old (Some (print_orders.user_id old)) (print_orders.v_user_id v);
     print_orders.t_merchant_id :=
       or_old (Some (print_orders.merchant_id old)) (print_orders.v_merchant_id v);
     print_orders.t_file_name :=
       or_old (Some (print_orders.file_name old)) (print_orders.v_file_name v);
     print_orders.t_file_url := or_old (Some (print_orders.file_url old)) (print_orders.v_file_url v);
     print_orders.t_file_size := or_old (print_orders.file_size old) (print_orders.v_file_size v);
     print_orders.t_pages := or_old (print_orders.pages old) (print_orders.v_pages v);
     print_orders.t_copies := or_old (Some (print_orders.copies old)) (print_orders.v_copies v);
     print_orders.t_notes := or_old (print_orders.notes old) (print_orders.v_notes v);
     print_orders.t_status := or_old (Some (print_orders.status old)) (print_orders.v_status v);
     print_orders.t_created_at :=
       or_old (Some (print_orders.created_at old)) (print_orders.v_created_at v);
     print_orders.t_updated_at :=
       or_old (Some (print_orders.updated_at old)) (print_orders.v_updated_at v) |}.

(** [public.update_updated_at_column()]: [NEW.updated_at = now(); RETURN NEW;] *)
Definition update_updated_at_column (now : timestamptz) (NEW : print_orders.tuple)
    : print_orders.tuple :=
  {| print_orders.t_id := print_orders.t_id NEW;
     print_orders.t_user_id := print_orders.t_user_id NEW;
     print_orders.t_merchant_id := print_orders.t_merchant_id NEW;
     print_orders.t_file_name := print_orders.t_file_name NEW;
     print_orders.t_file_url := print_orders.t_file_url NEW;
     print_orders.t_file_size := print_orders.t_file_size NEW;
     print_orders.t_pages := print_orders.t_pages NEW;
     print_orders.t_copies := print_orders.t_copies NEW;
     print_orders.t_notes := print_orders.t_notes NEW;
     print_orders.t_status := print_orders.t_status NEW;
     print_orders.t_created_at := print_orders.t_created_at NEW;
     print_orders.t_updated_at := Some now |}.

(** [CREATE TRIGGER update_print_orders_updated_at BEFORE UPDATE ON
     public.print_orders FOR EACH ROW ...]: the row that goes on to the
    checks is the one the function returns. *)
Definition update_print_orders_updated_at := update_updated_at_column.

(** The column types and NOT NULL columns of [print_orders]. *)
Definition print_orders_not_null (t : print_orders.tuple) : result print_orders.row :=
  id ← not_null "id" (print_orders.t_id t);
  user_id ← not_null "user_id" (print_orders.t_user_id t);
  merchant_id ← not_null "merchant_id" (print_orders.t_merchant_id t);
  file_name ← not_null "file_name" (print_orders.t_file_name t);
  file_url ← not_null "file_url" (print_orders.t_file_url t);
  file_size ← int4 (print_orders.t_file_size t);
  pages ← int4 (print_orders.t_pages t);
  copies_opt ← int4 (print_orders.t_copies t);
  copies ← not_null "copies" copies_opt;
  status ← not_null "status" (print_orders.t_status t);
  created_at ← not_null "created_at" (print_orders.t_created_at t);
  updated_at ← not_null "updated_at" (print_orders.t_updated_at t);
  Ok {| print_orders.id := id; print_orders.user_id := user_id;
        print_orders.merchant_id := merchant_id; print_orders.file_name := file_name;
        print_orders.file_url := file_url; print_orders.file_size := file_size;
        print_orders.pages := pages; print_orders.copies := copies;
        print_orders.notes := print_orders.t_notes t; print_orders.status := status;
        print_orders.created_at := created_at; print_orders.updated_at := updated_at |}.

(** [status IN ('pending', 'printing', 'completed', 'cancelled')] *)
Definition status_values : list string := ["pending"; "printing"; "completed"; "cancelled"].

(** The table's only CHECK constraint. *)
Definition print_orders_check (r : print_orders.row) : result unit :=
  guard (bool_decide (print_orders.status r ∈ status_values))
        (check_violation "print_orders_status_check").

(** PRIMARY KEY (id) and the two foreign keys. *)
Definition print_orders_keys (db : database) (rows : list print_orders.row) : result unit :=
  _ ← guard (bool_decide (NoDup (print_orders.id <$> rows))) (unique_violation "print_orders_pkey");
  _ ← guard (forallb (fun po => existsb (fun p => bool_decide (profiles.id p = print_orders.user_id po))
                                        (db_profiles db)) rows)
            (foreign_key_violation "print_orders_user_id_fkey");
  guard (forallb (fun po => existsb (fun m => bool_decide (merchants.id m = print_orders.merchant_id po))
                                    (db_merchants db)) rows)
        (foreign_key_violation "print_orders_merchant_id_fkey").

(** A new row is typed, then checked against row-level security, then
    against the CHECK constraint.  (PostgreSQL tests NOT NULL together
    with CHECK, after row-level security; each failure aborts the
    statement, so the statements that succeed are the same.) *)
Definition print_orders_insert (now : timestamptz) (gen_random_uuid : uuid) (db : database)
    (uid : option uuid) (returning : bool) (v : print_orders.values) : result database :=
  r ← print_orders_not_null (print_orders_defaults now gen_random_uuid v);
  _ ← guard (insert_allowed print_orders_policies db uid returning r)
            (row_security_violation "print_orders");
  _ ← print_orders_check r;
  let rows := (db_print_orders db ++ [r])%list in
  _ ← print_orders_keys db rows;
  Ok (set_print_orders db rows).

Definition print_orders_update_row (now : timestamptz) (db : database) (uid : option uuid)
    (st : update_stmt print_orders.row print_orders.values) (old : print_orders.row)
    : result print_orders.row :=
  if upd_matches st old && update_targets print_orders_policies db uid (upd_reads st) old then
    let NEW := update_print_orders_updated_at now (print_orders_assign old (upd_set st)) in
    r ← print_orders_not_null NEW;
    _ ← guard (update_stores print_orders_policies db uid (upd_reads st) r)
              (row_security_violation "print_orders");
    _ ← print_orders_check r;
    Ok r
  else Ok old.

Definition print_orders_update (now : timestamptz) (db : database) (uid : option uuid)
    (st : update_stmt print_orders.row print_orders.values) : result database :=
  rows ← for_each (print_orders_update_row now db uid st) (db_print_orders db);
  _ ← print_orders_keys db rows;
  Ok (set_print_orders db rows).

(** [SELECT * FROM public.print_orders WHERE ...] *)
Definition print_orders_select (db : database) (uid : option uuid)
    (where_ : print_orders.row -> bool) : list print_orders.row :=
  List.filter where_ (visible_print_orders db uid).

(** [SELECT * FROM public.merchants WHERE ...] *)
Definition merchants_select (db : database) (uid : option uuid)
    (where_ : merchants.row -> bool) : list merchants.row :=
  List.filter where_ (visible_merchants db uid).

(** ** The [print-files] bucket *)

Module storage_buckets.
Record row := {
  id : string;
  name : string;
  public : bool;
  file_size_limit : option Z
}.
End storage_buckets.

(** [INSERT INTO storage.buckets (id, name, public, file_size_limit)
     VALUES ('print-files', 'print-files', false, 52428800)] *)
Definition print_files : storage_buckets.row :=
  {| storage_buckets.id := "print-files"; storage_buckets.name := "print-files";
     storage_buckets.public := false; storage_buckets.file_size_limit := Some 52428800 |}.

(** [s LIKE pattern]: [%] stands for any run of characters, [_] for one
    character, a backslash takes the next character literally.  A
    pattern that ends in a lone backslash is an error in PostgreSQL; it
    matches nothing here. *)
Fixpoint like (pattern : string) : string -> bool :=
  match pattern with
  | EmptyString => fun s => match s with EmptyString => true | _ => false end
  | String c rest =>
      if Ascii.eqb c "%"%char then
        fix skip (s : string) : bool :=
          like rest s || match s with EmptyString => false | String _ s' => skip s' end
      else if Ascii.eqb c "_"%char then
        fun s => match s with EmptyString => false | String _ s' => like rest s' end
      else if Ascii.eqb c "\"%char then
        match rest with
        | EmptyString => fun _ => false
        | String e rest' =>
            fun s => match s with
                     | EmptyString => false
                     | String d s' => Ascii.eqb d e && like rest' s'
                     end
        end
      else
        fun s => match s with
                 | EmptyString => false
                 | String d s' => Ascii.eqb d c && like rest s'
                 end
  end.

(** [string_to_array(s, '/')] *)
Fixpoint split_slash (s : string) : list string :=
  match s with
  | EmptyString => [EmptyString]
  | String c s' =>
      if Ascii.eqb c "/"%char then EmptyString :: split_slash s'
      else match split_slash s' with
           | [] => [String c EmptyString]
           | w :: ws => String c w :: ws
           end
  end.

(** [storage.foldername(name)] is a function of the storage service, not
    of this migration: the components of the object name in front of the
    file name, [string_to_array(name, '/')] without its last element. *)
Definition storage_foldername (name : string) : list string :=
  match name with
  | EmptyString => []
  | _ => removelast (split_slash name)
  end.

Section Storage.
Variable foldername : string -> list string.

(** [(storage.foldername(name))[1]]: the first element, NULL when there is none. *)
Definition first_folder (name : string) : option string := head (foldername name).

(** [bucket_id = 'print-files'
     AND auth.uid()::text = (storage.foldername(name))[1]] *)
Definition in_own_folder : expr storage_objects.row := fun _ uid o =>
  Sql.and (Sql.eq (Some (storage_objects.bucket_id o)) (Some "print-files"))
          (Sql.eq uid (first_folder (storage_objects.name o))).

(** [bucket_id = 'print-files' AND EXISTS (
       SELECT 1 FROM public.print_orders po
       JOIN public.merchants m ON po.merchant_id = m.id
       WHERE m.user_id = auth.uid()
       AND po.file_url LIKE '%' || storage.objects.name)]

    Both tables of the join are read with the caller's rights, through
    their own SELECT policies. *)
Definition in_order_of_own_shop : expr storage_objects.row := fun db uid o =>
  Sql.and (Sql.eq (Some (storage_objects.bucket_id o)) (Some "print-files"))
          (Some (existsb
                   (fun po => existsb
                      (fun m =>
                         bool_decide (print_orders.merchant_id po = merchants.id m)
                         && Sql.holds (Sql.eq (Some (merchants.user_id m)) uid)
                         && like (String "%" (storage_objects.name o)) (print_orders.file_url po))
                      (visible_merchants db uid))
                   (visible_print_orders db uid))).

Definition objects_policies : list (policy storage_objects.row) :=
  [ {| pol_name := "Users can upload their own files";
       pol_cmd := INSERT;
       pol_using := None;
       pol_with_check := Some in_own_folder |};
    {| pol_name := "Users can view their own files";
       pol_cmd := SELECT;
       pol_using := Some in_own_folder;
       pol_with_check := None |};
    {| pol_name := "Merchants can view files in their orders";
       pol_cmd := SELECT;
       pol_using := Some in_order_of_own_shop;
       pol_with_check := None |} ].

(** An upload inserts the object's row on behalf of the caller. *)
Definition objects_insert (db : database) (uid : option uuid) (returning : bool)
    (o : storage_objects.row) : result database :=
  _ ← guard (insert_allowed objects_policies db uid returning o)
            (row_security_violation "objects");
  Ok (set_objects db (db_objects db ++ [o])).

(** A download or listing reads the object's row on behalf of the caller. *)
Definition objects_select (db : database) (uid : option uuid) : list storage_objects.row :=
  List.filter (select_allowed objects_policies db uid) (db_objects db).

End Storage.

(** ** A campus scenario

    Customer [u1], shop owner [m1] and bystander [u2] sign up; [m1]
    opens the shop "Campus Prints"; [u1] uploads a document and orders
    two copies of it from the shop. *)

Module Campus.

Definition u1 : uuid := "a1111111-1111-4111-8111-111111111111".
Definition m1 : uuid := "b2222222-2222-4222-8222-222222222222".
Definition u2 : uuid := "c3333333-3333-4333-8333-333333333333".
Definition shop : uuid := "d4444444-4444-4444-8444-444444444444".
Definition order : uuid := "e5555555-5555-4555-8555-555555555555".

Definition object_name : string := "a1111111-1111-4111-8111-111111111111/1700000000000.pdf".
Definition public_url : string :=
  "https://project.supabase.co/storage/v1/object/public/print-files/a1111111-1111-4111-8111-111111111111/1700000000000.pdf".

(** The shop owner keeps a price list in the bucket; there is no order yet. *)
Definition price_list : storage_objects.row :=
  {| storage_objects.bucket_id := "print-files";
     storage_objects.name := "b2222222-2222-4222-8222-222222222222/prices.pdf" |}.

Definition uploaded : storage_objects.row :=
  {| storage_objects.bucket_id := "print-files"; storage_objects.name := object_name |}.

Definition signup (id : uuid) (email : string) (meta : list (string * json)) : auth_users.row :=
  {| auth_users.id := id; auth_users.email := Some email;
     auth_users.raw_user_meta_data := Some (list_to_map meta) |}.

Definition new_shop (owner : uuid) (active : supplied bool) : merchants.values :=
  {| merchants.v_id := Omitted; merchants.v_user_id := Given (Some owner);
     merchants.v_shop_name := Given (Some "Campus Prints");
     merchants.v_description := Omitted; merchants.v_location := Omitted;
     merchants.v_is_active := active; merchants.v_created_at := Omitted |}.

(** The order form's INSERT: [user_id], [merchant_id], [file_name],
    [file_url], [file_size], [copies], [notes]; the other arguments allow
    a caller to send more. *)
Definition new_order (customer target : uuid) (copies : supplied Z) (status : supplied string)
    (updated_at : supplied timestamptz) : print_orders.values :=
  {| print_orders.v_id := Omitted;
     print_orders.v_user_id := Given (Some customer);
     print_orders.v_merchant_id := Given (Some target);
     print_orders.v_file_name := Given (Some "doc.pdf");
     print_orders.v_file_url := Given (Some public_url);
     print_orders.v_file_size := Given (Some 48213);
     print_orders.v_pages := Omitted;
     print_orders.v_copies := copies;
     print_orders.v_notes := Given None;
     print_orders.v_status := status;
     print_orders.v_created_at := Omitted;
     print_orders.v_updated_at := updated_at |}.

(** [UPDATE print_orders SET status = s WHERE id = order_id], the shop
    dashboard's call. *)
Definition set_status (order_id : uuid) (s : string)
    : update_stmt print_orders.row print_orders.values :=
  {| upd_set :=
       {| print_orders.v_id := Omitted; print_orders.v_user_id := Omitted;
          print_orders.v_merchant_id := Omitted; print_orders.v_file_name := Omitted;
          print_orders.v_file_url := Omitted; print_orders.v_file_size := Omitted;
          print_orders.v_pages := Omitted; print_orders.v_copies := Omitted;
          print_orders.v_notes := Omitted; print_orders.v_status := Given (Some s);
          print_orders.v_created_at := Omitted; print_orders.v_updated_at := Omitted |};
     upd_where := Some (fun po => bool_decide (print_orders.id po = order_id));
     upd_returning := false |}.

(** [UPDATE merchants SET shop_name = n WHERE user_id = owner] *)
Definition rename_shop (owner : uuid) (n : string)
    : update_stmt merchants.row merchants.values :=
  {| upd_set :=
       {| merchants.v_id := Omitted; merchants.v_user_id := Omitted;
          merchants.v_shop_name := Given (Some n); merchants.v_description := Omitted;
          merchants.v_location := Omitted; merchants.v_is_active := Omitted;
          merchants.v_created_at := Omitted |};
     upd_where := Some (fun m => bool_decide (merchants.user_id m = owner));
     upd_returning := false |}.

(** [UPDATE merchants SET is_active = false] *)
Definition close_shop : update_stmt merchants.row merchants.values :=
  {| upd_set :=
       {| merchants.v_id := Omitted; merchants.v_user_id := Omitted;
          merchants.v_shop_name := Omitted; merchants.v_description := Omitted;
          merchants.v_location := Omitted; merchants.v_is_active := Given (Some false);
          merchants.v_created_at := Omitted |};
     upd_where := None;
     upd_returning := false |}.

(** The three sign-ups and the shop. *)
Definition with_shop : result database :=
  db ← auth_users_insert 10 empty_db (signup u1 "a@x.edu" [("full_name", JString "Ann")]);
  db ← auth_users_insert 20 db
         (signup m1 "shop@x.edu" [("full_name", JString "Mo"); ("role", JString "merchant")]);
  db ← auth_users_insert 30 db (signup u2 "b@x.edu" []);
  merchants_insert 40 shop db (Some m1) false (new_shop m1 Omitted).

(** ... the upload and the order. *)
Definition with_order : result database :=
  db ← with_shop;
  db ← objects_insert storage_foldername db (Some u1) false uploaded;
  print_orders_insert 50 order db (Some u1) false (new_order u1 shop (Given (Some 2)) Omitted Omitted).

(** ... and the owner closes the shop. *)
Definition with_closed_shop : result database :=
  db ← with_order;
  merchants_update db (Some m1) close_shop.

(** The same order, with a caller-chosen [updated_at] ahead of the clock. *)
Definition with_postdated_order : result database :=
  db ← with_shop;
  print_orders_insert 50 order db (Some u1) false
    (new_order u1 shop (Given (Some 2)) Omitted (Given (Some 200))).

(** An order for no copies at all. *)
Definition with_empty_order : result database :=
  db ← with_shop;
  print_orders_insert 50 order db (Some u1) false
    (new_order u1 shop (Given (Some 0)) Omitted Omitted).

Definition with_price_list : result database :=
  db ← with_shop;
  objects_insert storage_foldername db (Some m1) false price_list.

(** The databases these statements leave behind. *)
Definition price_list_db : database := commit empty_db with_price_list.
Definition shop_db : database := commit empty_db with_shop.
Definition open_db : database := commit empty_db with_order.
Definition closed_db : database := commit empty_db with_closed_shop.

Definition the_shop (active : bool) : merchants.row :=
  {| merchants.id := shop; merchants.user_id := m1; merchants.shop_name := "Campus Prints";
     merchants.description := None; merchants.location := None;
     merchants.is_active := active; merchants.created_at := 40 |}.

Definition placed_order : print_orders.row :=
  {| print_orders.id := order; print_orders.user_id := u1; print_orders.merchant_id := shop;
     print_orders.file_name := "doc.pdf"; print_orders.file_url := public_url;
     print_orders.file_size := Some 48213; print_orders.pages := Some 1;
     print_orders.copies := 2; print_orders.notes := None; print_orders.status := "pending";
     print_orders.created_at := 50; print_orders.updated_at := 50 |}.

(** [UPDATE print_orders SET user_id = c WHERE id = order_id] *)
Definition hand_over (order_id c : uuid) : update_stmt print_orders.row print_orders.values :=
  {| upd_set :=
       {| print_orders.v_id := Omitted; print_orders.v_user_id := Given (Some c);
          print_orders.v_merchant_id := Omitted; print_orders.v_file_name := Omitted;
          print_orders.v_file_url := Omitted; print_orders.v_file_size := Omitted;
          print_orders.v_pages := Omitted; print_orders.v_copies := Omitted;
          print_orders.v_notes := Omitted; print_orders.v_status := Omitted;
          print_orders.v_created_at := Omitted; print_orders.v_updated_at := Omitted |};
     upd_where := Some (fun po => bool_decide (print_orders.id po = order_id));
     upd_returning := false |}.

Definition new_user (role : string) : auth_users.row :=
  signup m1 "shop@x.edu" [("full_name", JString "Mo"); ("role", JString role)].

Definition first_db : database :=
  commit empty_db (auth_users_insert 10 empty_db (signup u1 "a@x.edu" [("full_name", JString "Ann")])).

End Campus.

(** ** Specification predicates *)

(** The actor is the order's customer, or owns an active shop that the
    order is addressed to. *)
Definition order_party (db : database) (uid : option uuid) (po : print_orders.row) : Prop :=
  exists u, uid = Some u /\
    (print_orders.user_id po = u \/
     exists m, In m (db_merchants db) /\ merchants.is_active m = true /\
               merchants.id m = print_orders.merchant_id po /\ merchants.user_id m = u).

(** The same without the condition on [is_active]. *)
Definition order_party_any_shop (db : database) (uid : option uuid) (po : print_orders.row) : Prop :=
  exists u, uid = Some u /\
    (print_orders.user_id po = u \/
     exists m, In m (db_merchants db) /\
               merchants.id m = print_orders.merchant_id po /\ merchants.user_id m = u).

(** The actor owns an active shop with an order whose [file_url]
    matches ['%' || name]. *)
Definition file_of_own_shop_order (db : database) (uid : option uuid)
    (o : storage_objects.row) : Prop :=
  exists u po m, uid = Some u /\
    In po (db_print_orders db) /\ In m (db_merchants db) /\
    merchants.is_active m = true /\
    print_orders.merchant_id po = merchants.id m /\ merchants.user_id m = u /\
    like (String "%" (storage_objects.name o)) (print_orders.file_url po) = true.

(** The same without the condition on [is_active]. *)
Definition file_of_any_shop_order (db : database) (uid : option uuid)
    (o : storage_objects.row) : Prop :=
  exists u po m, uid = Some u /\
    In po (db_print_orders db) /\ In m (db_merchants db) /\
    print_orders.merchant_id po = merchants.id m /\ merchants.user_id m = u /\
    like (String "%" (storage_objects.name o)) (print_orders.file_url po) = true.

(** The label of a role, as the enum prints it. *)
Definition role_label (r : app_role) : string :=
  match r with user => "user" | merchant => "merchant" end.

(** Every stored order satisfies the CHECK constraint on [status]. *)
Definition status_valid (db : database) : Prop :=
  Forall (fun po => print_orders.status po ∈ status_values) (db_print_orders db).

(** One committed statement. *)
Inductive step (db : database) : database -> Prop :=
  | step_auth_users_insert now NEW db' :
      auth_users_insert now db NEW = Ok db' -> step db db'
  | step_auth_users_delete id :
      step db (auth_users_delete db id)
  | step_merchants_insert now gen uid returning v db' :
      merchants_insert now gen db uid returning v = Ok db' -> step db db'
  | step_merchants_update uid st db' :
      merchants_update db uid st = Ok db' -> step db db'
  | step_print_orders_insert now gen uid returning v db' :
      print_orders_insert now gen db uid returning v = Ok db' -> step db db'
  | step_print_orders_update now uid st db' :
      print_orders_update now db uid st = Ok db' -> step db db'
  | step_objects_insert uid returning o db' :
      objects_insert storage_foldername db uid returning o = Ok db' -> step db db'.

(** The databases that statements can build from the empty one. *)
Inductive reachable : database -> Prop :=
  | reachable_empty : reachable empty_db
  | reachable_step db db' : reachable db -> step db db' -> reachable db'.

(** ** The web client

    The queries and handlers of the two dashboards and of the header,
    over the statements above.  A request carries the session's user as
    [auth.uid()]; component state is passed in and handed back. *)

(** [a || b] on strings that may be missing: the first operand unless it
    is null, undefined or the empty string. *)
Definition js_or (a b : option string) : option string :=
  match a with
  | Some s => if String.eqb s "" then b else Some s
  | None => b
  end.

(** [s.split('.').pop()]: what follows the last dot, the whole string
    when there is none. *)
Fixpoint split_dot_pop (s : string) : string :=
  match s with
  | EmptyString => EmptyString
  | String c s' =>
      if existsb (Ascii.eqb ".") (list_ascii_of_string s') then split_dot_pop s'
      else if Ascii.eqb c "." then s'
      else s
  end.

(** A to-one embedded resource of a select ([profile:profiles!print_orders_user_id_fkey( * )],
    [merchant:merchants( * )]): the referenced row when the caller can read
    it, null otherwise. *)
Definition embed {R} (key : R -> uuid) (visible : list R) (k : uuid) : option R :=
  List.find (fun r => bool_decide (key r = k)) visible.

(** [.order('created_at', { ascending: false })]; rows with equal
    [created_at] stay in the order the table yields them. *)
Fixpoint insert_desc {R} (at_ : R -> timestamptz) (x : R) (l : list R) : list R :=
  match l with
  | [] => [x]
  | y :: l' => if (at_ y <=? at_ x)%Z then x :: l else y :: insert_desc at_ x l'
  end.

Definition order_desc {R} (at_ : R -> timestamptz) (l : list R) : list R :=
  foldr (insert_desc at_) [] l.

(** The rows of [profiles] a query of [uid] ranges over. *)
Definition visible_profiles (db : database) (uid : option uuid) : list profiles.row :=
  List.filter (select_allowed profiles_policies db uid) (db_profiles db).

Module Header.


(** [profile?.role === 'merchant' ? merchant?.shop_name : 'Student'] *)
Definition subtitle (profile : option profiles.row) (shop : option merchants.row)
    : option string :=
  match profile with
  | Some p =>
      match profiles.role p with
      | merchant => merchants.shop_name <$> shop
      | user => Some "Student"
      end
  | None => Some "Student"
  end.

End Header.

Module UserDashboard.

(** A [File] of the browser. *)
Record File := {
  name : string;
  type : string;
  size : Z
}.

Record PrintOrder := {
  order : print_orders.row;
  merchant : option merchants.row
}.

(** [supabase.from('merchants').select('*').eq('is_active', true)] *)
Definition fetchMerchants (db : database) (uid : option uuid) : list merchants.row :=
  merchants_select db uid (fun m => bool_decide (merchants.is_active m = true)).

(** [supabase.from('print_orders').select('*, merchant:merchants( * )')
      .order('created_at', { ascending: false })] *)
Definition fetchOrders (db : database) (uid : option uuid) : list PrintOrder :=
  order_desc (fun o => print_orders.created_at (order o))
    ((fun po => {| order := po;
                   merchant := embed merchants.id (visible_merchants db uid)
                                     (print_orders.merchant_id po) |})
       <$> print_orders_select db uid (fun _ => true)).

(** [handleFileChange]: the selection replaces the chosen file only when
    it is a PDF of at most 50 * 1024 * 1024 bytes; the second component
    is the title of the toast, if one is shown. *)
Definition handleFileChange (file : option File) (selectedFile : option File)
    : option File * option string :=
  match selectedFile with
  | Some f =>
      if negb (String.eqb (type f) "application/pdf") then (file, Some "Invalid file type")
      else if (50 * 1024 * 1024 <? size f)%Z then (file, Some "File too large")
      else (Some f, None)
  | None => (file, None)
  end.

(** [`${user.id}/${Date.now()}.${fileExt}`] *)
Definition fileName (user_id : uuid) (date_now : N) (f : File) : string :=
  user_id +:+ "/" +:+ pretty date_now +:+ "." +:+ split_dot_pop (name f).

(** The row handed to [supabase.from('print_orders').insert]. *)
Definition order_values (user_id : uuid) (selectedMerchant : string) (f : File)
    (publicUrl : string) (copies : Z) (notes : string) : print_orders.values :=
  {| print_orders.v_id := Omitted;
     print_orders.v_user_id := Given (Some user_id);
     print_orders.v_merchant_id := Given (Some selectedMerchant);
     print_orders.v_file_name := Given (Some (name f));
     print_orders.v_file_url := Given (Some publicUrl);
     print_orders.v_file_size := Given (Some (size f));
     print_orders.v_pages := Omitted;
     print_orders.v_copies := Given (Some copies);
     print_orders.v_notes := Given (if String.eqb notes "" then None else Some notes);
     print_orders.v_status := Omitted;
     print_orders.v_created_at := Omitted;
     print_orders.v_updated_at := Omitted |}.

Section Submit.
(** The storage service: its [foldername], whether its INSERT has a
    RETURNING clause, and the client library's [getPublicUrl]. *)
Variable foldername : string -> list string.
Variable returning : bool.
Variable getPublicUrl : string -> string.

(** [supabase.storage.from('print-files').upload(path, file)]: the
    service turns away a file above the size limit of the bucket and
    otherwise inserts the object's row for the caller; [None] stands for
    an [uploadError]. *)
Definition upload (db : database) (uid : option uuid) (path : string) (f : File)
    : option database :=
  if match storage_buckets.file_size_limit print_files with
     | Some limit => (limit <? size f)%Z
     | None => false
     end
  then None
  else match objects_insert foldername db uid returning
               {| storage_objects.bucket_id := "print-files"; storage_objects.name := path |} with
       | Ok db' => Some db'
       | Err _ => None
       end.

(** [handleSubmit]: the upload and the INSERT are two requests, each
    committed on its own; the result is the database afterwards and the
    title of the toast. *)
Definition handleSubmit (now : timestamptz) (gen_random_uuid : uuid) (date_now : N)
    (db : database) (user : option uuid) (file : option File) (selectedMerchant : string)
    (copies : Z) (notes : string) : database * string :=
  match file, user with
  | Some f, Some user_id =>
      if String.eqb selectedMerchant "" then (db, "Missing information")
      else
        let path := fileName user_id date_now f in
        match upload db (Some user_id) path f with
        | None => (db, "Submission failed")
        | Some db1 =>
            match print_orders_insert now gen_random_uuid db1 (Some user_id) false
                    (order_values user_id selectedMerchant f (getPublicUrl path) copies notes) with
            | Err _ => (db1, "Submission failed")
            | Ok db2 => (db2, "Order submitted!")
            end
        end
  | _, _ => (db, "Missing information")
  end.

End Submit.

End UserDashboard.

Module MerchantDashboard.

Record OrderWithUser := {
  order : print_orders.row;
  profile : option profiles.row
}.

(** [supabase.from('print_orders')
      .select('*, profile:profiles!print_orders_user_id_fkey( * )')
      .eq('merchant_id', merchant.id)
      .order('created_at', { ascending: false })] *)
Definition fetchOrders (db : database) (uid : option uuid) (shop : merchants.row)
    : list OrderWithUser :=
  order_desc (fun o => print_orders.created_at (order o))
    ((fun po => {| order := po;
                   profile := embed profiles.id (visible_profiles db uid)
                                    (print_orders.user_id po) |})
       <$> print_orders_select db uid
             (fun po => bool_decide (print_orders.merchant_id po = merchants.id shop))).

(** [supabase.from('print_orders').update({ status }).eq('id', orderId)] *)
Definition status_update (orderId : uuid) (status : string)
    : update_stmt print_orders.row print_orders.values :=
  {| upd_set :=
       {| print_orders.v_id := Omitted; print_orders.v_user_id := Omitted;
          print_orders.v_merchant_id := Omitted; print_orders.v_file_name := Omitted;
          print_orders.v_file_url := Omitted; print_orders.v_file_size := Omitted;
          print_orders.v_pages := Omitted; print_orders.v_copies := Omitted;
          print_orders.v_notes := Omitted; print_orders.v_status := Given (Some status);
          print_orders.v_created_at := Omitted; print_orders.v_updated_at := Omitted |};
     upd_where := Some (fun po => bool_decide (print_orders.id po = orderId));
     upd_returning := false |}.

(** [updateStatus]: the database afterwards and the title of the toast. *)
Definition updateStatus (now : timestamptz) (db : database) (uid : option uuid)
    (orderId : uuid) (status : string) : database * string :=
  match print_orders_update now db uid (status_update orderId status) with
  | Err _ => (db, "Update failed")
  | Ok db' => (db', "Status updated")
  end.

Definition pendingOrders (orders : list OrderWithUser) : list OrderWithUser :=
  List.filter (fun o => String.eqb (print_orders.status (order o)) "pending") orders.

Definition printingOrders (orders : list OrderWithUser) : list OrderWithUser :=
  List.filter (fun o => String.eqb (print_orders.status (order o)) "printing") orders.

Definition completedOrders (orders : list OrderWithUser) : list OrderWithUser :=
  List.filter (fun o => String.eqb (print_orders.status (order o)) "completed"
                        || String.eqb (print_orders.status (order o)) "cancelled") orders.

(** The statuses the buttons of an order card lead to. *)
Definition actions (o : OrderWithUser) : list string :=
  (if String.eqb (print_orders.status (order o)) "pending" then ["printing"; "cancelled"] else [])
  ++ (if String.eqb (print_orders.status (order o)) "printing" then ["completed"] else []).

(** [order.profile?.full_name || order.profile?.email || 'Unknown'] *)
Definition from_label (o : OrderWithUser) : option string :=
  js_or (js_or (p ← profile o; profiles.full_name p) (profiles.email <$> profile o))
        (Some "Unknown").

End MerchantDashboard.

(** ** Integrity of a database *)

(** The primary keys, the UNIQUE constraint and the foreign keys of the
    schema; the profiles are those of the users, one each and in the
    same order. *)
Record consistent (db : database) : Prop := {
  users_pkey : NoDup (auth_users.id <$> db_users db);
  profiles_of_users : profiles.id <$> db_profiles db = auth_users.id <$> db_users db;
  merchants_pkey : NoDup (merchants.id <$> db_merchants db);
  merchants_user_id_key : NoDup (merchants.user_id <$> db_merchants db);
  merchants_user_id_fkey :
    forall m, In m (db_merchants db) -> In (merchants.user_id m) (profiles.id <$> db_profiles db);
  print_orders_pkey : NoDup (print_orders.id <$> db_print_orders db);
  print_orders_user_id_fkey :
    forall po, In po (db_print_orders db) ->
               In (print_orders.user_id po) (profiles.id <$> db_profiles db);
  print_orders_merchant_id_fkey :
    forall po, In po (db_print_orders db) ->
               In (print_orders.merchant_id po) (merchants.id <$> db_merchants db);
  print_orders_int4 :
    forall po, In po (db_print_orders db) ->
               int4 (print_orders.file_size po) = Ok (print_orders.file_size po) /\
               int4 (print_orders.pages po) = Ok (print_orders.pages po) /\
               int4_in_range (print_orders.copies po) = true
}.

(** The order [po] with another status and update time. *)
Definition restamp (po : print_orders.row) (status : string) (now : timestamptz)
    : print_orders.row :=
  {| print_orders.id := print_orders.id po; print_orders.user_id := print_orders.user_id po;
     print_orders.merchant_id := print_orders.merchant_id po;
     print_orders.file_name := print_orders.file_name po;
     print_orders.file_url := print_orders.file_url po;
     print_orders.file_size := print_orders.file_size po;
     print_orders.pages := print_orders.pages po; print_orders.copies := print_orders.copies po;
     print_orders.notes := print_orders.notes po; print_orders.status := status;
     print_orders.created_at := print_orders.created_at po;
     print_orders.updated_at := now |}.

(** The order a submission of the form stores. *)
Definition submitted_order (now : timestamptz) (id user_id : uuid) (selectedMerchant : string)
    (f : UserDashboard.File) (publicUrl : string) (copies : Z) (notes : string)
    : print_orders.row :=
  {| print_orders.id := id; print_orders.user_id := user_id;
     print_orders.merchant_id := selectedMerchant;
     print_orders.file_name := UserDashboard.name f;
     print_orders.file_url := publicUrl;
     print_orders.file_size := Some (UserDashboard.size f);
     print_orders.pages := Some 1; print_orders.copies := copies;
     print_orders.notes := if String.eqb notes "" then None else Some notes;
     print_orders.status := "pending";
     print_orders.created_at := now; print_orders.updated_at := now |}.

(** The object a submission of the form uploads. *)
Definition submitted_object (user_id : uuid) (date_now : N) (f : UserDashboard.File)
    : storage_objects.row :=
  {| storage_objects.bucket_id := "print-files";
     storage_objects.name := UserDashboard.fileName user_id date_now f |}.

(** Further states and inputs of the campus scenario. *)
Module Cases.

(** The three sign-ups, before the shop opens. *)
Definition users_db : database :=
  commit empty_db
    (db ← auth_users_insert 10 empty_db
            (Campus.signup Campus.u1 "a@x.edu" [("full_name", JString "Ann")]);
     db ← auth_users_insert 20 db (Campus.new_user "merchant");
     auth_users_insert 30 db (Campus.signup Campus.u2 "b@x.edu" [])).

Definition no_email : auth_users.row :=
  {| auth_users.id := Campus.u2; auth_users.email := None;
     auth_users.raw_user_meta_data := None |}.


Definition pdf : UserDashboard.File :=
  {| UserDashboard.name := "doc.pdf"; UserDashboard.type := "application/pdf";
     UserDashboard.size := 48213 |}.

Definition photo : UserDashboard.File :=
  {| UserDashboard.name := "me.png"; UserDashboard.type := "image/png";
     UserDashboard.size := 48213 |}.

Definition scan : UserDashboard.File :=
  {| UserDashboard.name := "scan.pdf"; UserDashboard.type := "application/pdf";
     UserDashboard.size := 52428801 |}.

Definition getPublicUrl (path : string) : string :=
  "https://project.supabase.co/storage/v1/object/public/print-files/" +:+ path.

End Cases.

(** No character of [s] is special in a LIKE pattern. *)
Definition plain (s : string) : Prop :=
  Forall (fun c => c <> "%"%char /\ c <> "_"%char /\ c <> "\"%char) (list_ascii_of_string s).

Definition no_backslash (s : string) : Prop :=
  Forall (fun c => c <> "\"%char) (list_ascii_of_string s).

Definition no_slash (s : string) : Prop :=
  Forall (fun c => c <> "/"%char) (list_ascii_of_string s).

(** * Facts *)

(** ** SQL truth values *)

Lemma holds_eq {A} `{EqDecision A} (x y : option A) :
  Sql.holds (Sql.eq x y) = true <-> exists a, x = Some a /\ y = Some a.
Proof.
  destruct x as [a|], y as [b|]; simpl.
  - case_bool_decide; simpl; split.
    + intros _. exists a. subst; auto.
    + reflexivity.
    + discriminate.
    + intros (c & H1 & H2). congruence.
  - split; [discriminate | intros (c & H1 & H2); discriminate].
  - split; [discriminate | intros (c & H1 & H2); discriminate].
  - split; [discriminate | intros (c & H1 & H2); discriminate].
Qed.

Lemma holds_and (a b : Sql.tri) : Sql.holds (Sql.and a b) = Sql.holds a && Sql.holds b.
Proof. destruct a as [[]|], b as [[]|]; reflexivity. Qed.

Lemma holds_Some (b : bool) : Sql.holds (Some b) = b.
Proof. destruct b; reflexivity. Qed.

Lemma holds_eq_uid (uid : option uuid) (k : uuid) :
  Sql.holds (Sql.eq uid (Some k)) = true <-> uid = Some k.
Proof.
  rewrite holds_eq. split.
  - intros (a & -> & E). congruence.
  - intros ->. eauto.
Qed.

(** ** The statement monad *)

Lemma bind_Ok {A B} (r : result A) (k : A -> result B) (b : B) :
  (r ≫= k) = Ok b -> exists a, r = Ok a /\ k a = Ok b.
Proof. destruct r as [a|e]; simpl; [eauto | discriminate]. Qed.

Lemma guard_Ok (b : bool) (e : error) (u : unit) : guard b e = Ok u -> b = true.
Proof. destruct b; [reflexivity | discriminate]. Qed.

Lemma not_null_Ok {A} (c : string) (v : option A) (a : A) : not_null c v = Ok a -> v = Some a.
Proof. destruct v; simpl; congruence. Qed.

Lemma for_each_Forall2 {A B} (f : A -> result B) (l : list A) (l' : list B) :
  for_each f l = Ok l' -> Forall2 (fun a b => f a = Ok b) l l'.
Proof.
  revert l'. induction l as [|a l IH]; intros l' H; simpl in H.
  - injection H as <-. constructor.
  - apply bind_Ok in H as (b & Hb & H).
    apply bind_Ok in H as (bs & Hbs & H).
    injection H as <-. constructor; auto.
Qed.

Lemma for_each_Err {A B} (f : A -> result B) (l : list A) (a : A) :
  In a l -> (exists e, f a = Err e) -> exists e, for_each f l = Err e.
Proof.
  induction l as [|x l IH]; intros Hin Hf; [destruct Hin|].
  simpl. destruct (f x) as [b|e] eqn:Ex; simpl; [|eauto].
  destruct Hin as [->|Hin].
  - destruct Hf as [e He]. congruence.
  - destruct (IH Hin Hf) as [e ->]. simpl. eauto.
Qed.

(** ** Policies, one command at a time *)

Lemma merchants_select_is_active db uid m :
  select_allowed merchants_policies db uid m = merchants.is_active m.
Proof.
  unfold select_allowed, security_qual; simpl.
  destruct (merchants.is_active m); reflexivity.
Qed.

Lemma visible_merchants_In db uid m :
  In m (visible_merchants db uid) <-> In m (db_merchants db) /\ merchants.is_active m = true.
Proof.
  unfold visible_merchants. rewrite filter_In, merchants_select_is_active. reflexivity.
Qed.

Lemma merchants_update_qual db uid m :
  security_qual merchants_policies UPDATE db uid m = true <-> uid = Some (merchants.user_id m).
Proof.
  unfold security_qual; simpl. rewrite orb_false_r. apply holds_eq_uid.
Qed.

Lemma merchants_update_check db uid m :
  with_check_option merchants_policies UPDATE false db uid m = true
  <-> uid = Some (merchants.user_id m).
Proof.
  unfold with_check_option; simpl. rewrite orb_false_r. apply holds_eq_uid.
Qed.

Lemma owns_target_merchant_holds db uid po :
  Sql.holds (owns_target_merchant db uid po) = true <->
  exists u, uid = Some u /\
    exists m, In m (db_merchants db) /\ merchants.is_active m = true /\
              merchants.id m = print_orders.merchant_id po /\ merchants.user_id m = u.
Proof.
  unfold owns_target_merchant. rewrite holds_Some.
  split.
  - intros E. apply existsb_exists in E as (m & Hm & Hq).
    apply visible_merchants_In in Hm as [Hm Ha].
    rewrite holds_and in Hq. apply andb_true_iff in Hq as [H1 H2].
    apply holds_eq in H1 as (a & H1 & H1'). apply holds_eq in H2 as (b & H2 & H2').
    exists b. split; [auto|]. exists m. repeat split; auto; congruence.
  - intros (u & -> & m & Hm & Ha & Hid & Hu).
    apply existsb_exists. exists m. split.
    + apply visible_merchants_In; auto.
    + rewrite holds_and. apply andb_true_iff. split; apply holds_eq.
      * exists (merchants.id m). split; congruence.
      * exists u. split; congruence.
Qed.

Lemma order_party_iff db uid po :
  Sql.holds (Sql.eq uid (Some (print_orders.user_id po)))
  || Sql.holds (owns_target_merchant db uid po) = true
  <-> order_party db uid po.
Proof.
  rewrite orb_true_iff, holds_eq_uid, owns_target_merchant_holds. unfold order_party. split.
  - intros [-> | (u & -> & H)]; eauto.
  - intros (u & -> & [<- | H]); eauto.
Qed.

Lemma print_orders_select_qual db uid po :
  security_qual print_orders_policies SELECT db uid po = true <-> order_party db uid po.
Proof.
  rewrite <- order_party_iff. unfold security_qual; simpl.
  rewrite !orb_false_r. reflexivity.
Qed.

Lemma print_orders_update_qual db uid po :
  security_qual print_orders_policies UPDATE db uid po = true <-> order_party db uid po.
Proof.
  rewrite <- order_party_iff. unfold security_qual; simpl.
  rewrite !orb_false_r. reflexivity.
Qed.

Lemma print_orders_update_check db uid po :
  with_check_option print_orders_policies UPDATE false db uid po = true <-> order_party db uid po.
Proof.
  rewrite <- order_party_iff. unfold with_check_option; simpl.
  rewrite !orb_false_r. reflexivity.
Qed.

Lemma print_orders_select_check db uid po :
  with_check_option print_orders_policies SELECT true db uid po = true <-> order_party db uid po.
Proof.
  rewrite <- order_party_iff. unfold with_check_option; simpl.
  rewrite !orb_false_r. reflexivity.
Qed.

Lemma print_orders_update_targets db uid reads po :
  update_targets print_orders_policies db uid reads po = true <-> order_party db uid po.
Proof.
  unfold update_targets. rewrite andb_true_iff, print_orders_update_qual.
  destruct reads; [rewrite print_orders_select_qual|]; tauto.
Qed.

Lemma print_orders_update_stores db uid reads po :
  update_stores print_orders_policies db uid reads po = true <-> order_party db uid po.
Proof.
  unfold update_stores. rewrite andb_true_iff, print_orders_update_check.
  destruct reads; [rewrite print_orders_select_check|]; tauto.
Qed.

(** * The claims *)

(** ** Print orders: who may read and update *)

Lemma campus_states :
  Campus.with_shop = Ok Campus.shop_db /\
  Campus.with_order = Ok Campus.open_db /\
  Campus.with_closed_shop = Ok Campus.closed_db /\
  db_merchants Campus.open_db = [Campus.the_shop true] /\
  db_merchants Campus.closed_db = [Campus.the_shop false] /\
  db_print_orders Campus.open_db = [Campus.placed_order] /\
  db_print_orders Campus.closed_db = [Campus.placed_order].
Proof. vm_compute. repeat split. Qed.

(** C1 (as amended).  A read of a print order succeeds exactly when the
    actor is the order's customer or owns an active merchant the order is
    addressed to; an update succeeds exactly when this holds of the row
    before the update and of the row as updated.  Every other actor,
    a request without identity included, is denied. *)
Theorem print_orders_read_update_iff (db : database) (uid : option uuid)
    (po : print_orders.row) :
  (select_allowed print_orders_policies db uid po = true <-> order_party db uid po) /\
  (forall (reads : bool) (new : print_orders.row),
     update_allowed print_orders_policies db uid reads po new = true
     <-> order_party db uid po /\ order_party db uid new).
Proof.
  split.
  - apply print_orders_select_qual.
  - intros reads new. unfold update_allowed.
    rewrite andb_true_iff, print_orders_update_targets, print_orders_update_stores.
    reflexivity.
Qed.

(** C1 as stated fails.  After the owner [m1] has closed the shop, [m1]
    still owns the merchant the order names, yet can no longer read the
    order; and the customer [u1], who may update the order, is refused
    an update that hands the order over to [u2]. *)
Lemma closed_shop_owner_cannot_read_order :
  Campus.with_closed_shop = Ok Campus.closed_db /\
  In Campus.placed_order (db_print_orders Campus.closed_db) /\
  order_party_any_shop Campus.closed_db (Some Campus.m1) Campus.placed_order /\
  select_allowed print_orders_policies Campus.closed_db (Some Campus.m1) Campus.placed_order = false /\
  ~ (select_allowed print_orders_policies Campus.closed_db (Some Campus.m1) Campus.placed_order = true
     <-> order_party_any_shop Campus.closed_db (Some Campus.m1) Campus.placed_order) /\
  order_party_any_shop Campus.open_db (Some Campus.u1) Campus.placed_order /\
  print_orders_update 60 Campus.open_db (Some Campus.u1) (Campus.hand_over Campus.order Campus.u2)
  = Err (row_security_violation "print_orders").
Proof.
  assert (order_party_any_shop Campus.closed_db (Some Campus.m1) Campus.placed_order) as Hparty.
  { exists Campus.m1. split; [reflexivity|]. right. exists (Campus.the_shop false).
    split; [vm_compute; left; reflexivity|]. split; reflexivity. }
  assert (select_allowed print_orders_policies Campus.closed_db (Some Campus.m1)
            Campus.placed_order = false) as Hdenied by (vm_compute; reflexivity).
  refine (conj _ (conj _ (conj _ (conj _ (conj _ (conj _ _)))))).
  - vm_compute. reflexivity.
  - vm_compute. left. reflexivity.
  - exact Hparty.
  - exact Hdenied.
  - intros [_ H]. specialize (H Hparty). congruence.
  - exists Campus.u1. split; [reflexivity|]. left. reflexivity.
  - vm_compute. reflexivity.
Qed.

(** While no shop is closed the condition on [is_active] is void, and
    the actors who can read an order are the customer and the owner of
    the shop the order names. *)
Lemma order_party_when_shops_active (db : database) (uid : option uuid) (po : print_orders.row) :
  (forall m, In m (db_merchants db) -> merchants.is_active m = true) ->
  (select_allowed print_orders_policies db uid po = true <-> order_party_any_shop db uid po).
Proof.
  intros Hall. unfold select_allowed. rewrite print_orders_select_qual.
  unfold order_party, order_party_any_shop. split.
  - intros (u & Hu & [Hc | (m & Hm & _ & Hid & Ho)]); exists u; split; auto.
    right. exists m. auto.
  - intros (u & Hu & [Hc | (m & Hm & Hid & Ho)]); exists u; split; auto.
    right. exists m. pose proof (Hall m Hm). auto.
Qed.

(** ** Merchants: who may read *)

(** C8.  An inactive merchant is not readable by an actor other than its
    owner; an active merchant is readable by any actor, whoever owns it
    and whether or not the request carries an identity. *)
Theorem merchants_read_by_active_flag (db : database) (uid : option uuid) (m : merchants.row) :
  (merchants.is_active m = false -> uid <> Some (merchants.user_id m) ->
   select_allowed merchants_policies db uid m = false) /\
  (merchants.is_active m = true -> select_allowed merchants_policies db uid m = true).
Proof.
  rewrite merchants_select_is_active. split; auto.
Qed.

Lemma merchants_read_by_active_flag_witness :
  select_allowed merchants_policies Campus.closed_db (Some Campus.u2) (Campus.the_shop false) = false /\
  select_allowed merchants_policies Campus.open_db None (Campus.the_shop true) = true.
Proof.
  split.
  - apply (merchants_read_by_active_flag Campus.closed_db (Some Campus.u2) (Campus.the_shop false)).
    + reflexivity.
    + discriminate.
  - apply (merchants_read_by_active_flag Campus.open_db None (Campus.the_shop true)).
    reflexivity.
Defined.

(** C10.  An inactive merchant is readable by no actor, its owner
    included: the only SELECT policy of [merchants] tests [is_active]. *)
Theorem inactive_merchant_hidden_from_all (db : database) (uid : option uuid) (m : merchants.row) :
  merchants.is_active m = false ->
  select_allowed merchants_policies db uid m = false /\
  forall where_, ~ In m (merchants_select db uid where_).
Proof.
  intros H. split.
  - rewrite merchants_select_is_active. exact H.
  - intros w Hin. unfold merchants_select in Hin.
    apply filter_In in Hin as [Hin _].
    apply visible_merchants_In in Hin as [_ Ha]. congruence.
Qed.

Lemma inactive_merchant_hidden_from_all_witness :
  select_allowed merchants_policies Campus.closed_db (Some Campus.m1) (Campus.the_shop false) = false /\
  forall where_, ~ In (Campus.the_shop false) (merchants_select Campus.closed_db (Some Campus.m1) where_).
Proof.
  apply (inactive_merchant_hidden_from_all Campus.closed_db (Some Campus.m1) (Campus.the_shop false)).
  reflexivity.
Defined.

(** ** Merchants: the owner column *)

Lemma merchants_update_allowed_owner db uid reads old new :
  update_allowed merchants_policies db uid reads old new = true ->
  uid = Some (merchants.user_id old) /\ merchants.user_id new = merchants.user_id old.
Proof.
  unfold update_allowed, update_targets, update_stores.
  rewrite !andb_true_iff. intros [[Hq _] [Hc _]].
  apply merchants_update_qual in Hq. apply merchants_update_check in Hc.
  split; congruence.
Qed.

Lemma merchants_update_row_owner db uid st old new :
  merchants_update_row db uid st old = Ok new ->
  merchants.user_id new = merchants.user_id old.
Proof.
  unfold merchants_update_row.
  destruct (upd_matches st old && update_targets merchants_policies db uid (upd_reads st) old)
    eqn:Ht; [|congruence].
  intros H. apply bind_Ok in H as (r & Hr & H). apply bind_Ok in H as ([] & Hg & H).
  injection H as <-. apply guard_Ok in Hg.
  apply andb_true_iff in Ht as [_ Ht].
  eapply merchants_update_allowed_owner. unfold update_allowed. rewrite Ht, Hg. reflexivity.
Qed.

(** C9.  No update of [merchants] that row-level security lets through
    changes a row's [user_id]: an UPDATE statement that succeeds leaves
    every row with the owner it had, and already a single row can only
    be replaced, by its owner, with a row of the same owner. *)
Theorem merchants_owner_immutable (db db' : database) (uid : option uuid)
    (st : update_stmt merchants.row merchants.values) :
  merchants_update db uid st = Ok db' ->
  Forall2 (fun old new => merchants.user_id new = merchants.user_id old)
          (db_merchants db) (db_merchants db') /\
  forall reads old new,
    update_allowed merchants_policies db uid reads old new = true ->
    merchants.user_id new = merchants.user_id old.
Proof.
  intros H. split.
  - unfold merchants_update in H.
    apply bind_Ok in H as (rows & Hrows & H).
    apply bind_Ok in H as ([] & _ & H). apply bind_Ok in H as ([] & _ & H).
    injection H as <-. simpl.
    apply for_each_Forall2 in Hrows.
    eapply Forall2_impl; [exact Hrows|]. intros old new Hrow. simpl in Hrow.
    exact (merchants_update_row_owner _ _ _ _ _ Hrow).
  - intros reads old new Hu. eapply merchants_update_allowed_owner; eauto.
Qed.

Lemma merchants_owner_immutable_witness :
  Forall2 (fun old new => merchants.user_id new = merchants.user_id old)
          (db_merchants Campus.open_db)
          (db_merchants (commit Campus.open_db
             (merchants_update Campus.open_db (Some Campus.m1) (Campus.rename_shop Campus.m1 "Prints & Co")))) /\
  forall reads old new,
    update_allowed merchants_policies Campus.open_db (Some Campus.m1) reads old new = true ->
    merchants.user_id new = merchants.user_id old.
Proof.
  apply (merchants_owner_immutable Campus.open_db _ (Some Campus.m1)
           (Campus.rename_shop Campus.m1 "Prints & Co")).
  vm_compute. reflexivity.
Defined.

(** ** Identity creation *)

Lemma app_role_in_Ok (s : string) (r : app_role) :
  app_role_in s = Ok r -> role_label r = s.
Proof.
  unfold app_role_in.
  destruct (String.eqb s "user") eqn:E1.
  - intros H. injection H as <-. apply String.eqb_eq in E1. auto.
  - destruct (String.eqb s "merchant") eqn:E2; [|discriminate].
    intros H. injection H as <-. apply String.eqb_eq in E2. auto.
Qed.

Lemma app_role_in_Err (s : string) :
  s <> "user" -> s <> "merchant" ->
  app_role_in s = Err (invalid_text_representation "app_role").
Proof.
  intros H1 H2. unfold app_role_in.
  destruct (String.eqb s "user") eqn:E1; [apply String.eqb_eq in E1; contradiction|].
  destruct (String.eqb s "merchant") eqn:E2; [apply String.eqb_eq in E2; contradiction|].
  reflexivity.
Qed.

Lemma filter_none {A} (f : A -> bool) (l : list A) :
  existsb f l = false -> List.filter f l = [].
Proof.
  induction l as [|a l IH]; simpl; [reflexivity|].
  destruct (f a); simpl; [discriminate | exact IH].
Qed.

(** C3.  When an identity is created, the database afterwards holds the
    identity and exactly one profile with its key; the profile has the
    identity's email, the full name of the metadata or the empty string,
    and the role of the metadata or [user].  When the metadata carries a
    role that is not a label of [app_role], the creation fails and the
    database is left as it was: neither identity nor profile. *)
Theorem identity_creation_provisions_profile (now : timestamptz) (db : database)
    (NEW : auth_users.row) :
  (forall db', auth_users_insert now db NEW = Ok db' ->
     In NEW (db_users db') /\
     exists p,
       List.filter (fun q => bool_decide (profiles.id q = auth_users.id NEW)) (db_profiles db') = [p] /\
       profiles.id p = auth_users.id NEW /\
       auth_users.email NEW = Some (profiles.email p) /\
       profiles.full_name p
       = Some (default "" (get_text (auth_users.raw_user_meta_data NEW) "full_name")) /\
       match get_text (auth_users.raw_user_meta_data NEW) "role" with
       | None => profiles.role p = user
       | Some s => role_label (profiles.role p) = s
       end) /\
  (forall s, get_text (auth_users.raw_user_meta_data NEW) "role" = Some s ->
     s <> "user" -> s <> "merchant" ->
     (exists e, auth_users_insert now db NEW = Err e) /\
     commit db (auth_users_insert now db NEW) = db).
Proof.
  split.
  - intros db' H. unfold auth_users_insert in H.
    apply bind_Ok in H as ([] & _ & H).
    unfold on_auth_user_created, handle_new_user in H.
    apply bind_Ok in H as (role & Hrole & H).
    unfold profiles_insert in H. cbn [not_null mbind result_bind] in H.
    apply bind_Ok in H as (email & Hemail & H).
    apply bind_Ok in H as ([] & Hpk & H). apply bind_Ok in H as ([] & _ & H).
    injection H as <-. apply not_null_Ok in Hemail. apply guard_Ok in Hpk.
    apply negb_true_iff in Hpk. cbn [db_profiles set_users] in Hpk.
    split.
    + cbn [db_users set_profiles set_users]. apply in_or_app. right. left. reflexivity.
    + eexists. split; [|split; [|split; [|split]]].
      * cbn [db_profiles set_profiles set_users].
        rewrite List.filter_app, (filter_none _ _ Hpk). cbn [List.filter profiles.id app].
        rewrite bool_decide_eq_true_2 by reflexivity. reflexivity.
      * reflexivity.
      * exact Hemail.
      * reflexivity.
      * cbn [profiles.role]. unfold cast_app_role in Hrole.
        destruct (get_text (auth_users.raw_user_meta_data NEW) "role") as [s|].
        -- apply bind_Ok in Hrole as (r & Hr & Hrole). injection Hrole as <-.
           apply app_role_in_Ok in Hr. exact Hr.
        -- injection Hrole as <-. reflexivity.
  - intros s Hs H1 H2.
    assert (exists e, auth_users_insert now db NEW = Err e) as [e He].
    { unfold auth_users_insert.
      destruct (guard _ _) as [[]|e]; [|simpl; eauto].
      cbn [mbind result_bind]. unfold on_auth_user_created, handle_new_user.
      rewrite Hs. unfold cast_app_role. rewrite (app_role_in_Err s H1 H2).
      simpl. eauto. }
    split; [eauto|]. rewrite He. reflexivity.
Qed.

Lemma identity_creation_provisions_profile_witness :
  (In (Campus.new_user "merchant")
      (db_users (commit Campus.first_db
                   (auth_users_insert 20 Campus.first_db (Campus.new_user "merchant")))) /\
   exists p,
     List.filter (fun q => bool_decide (profiles.id q = Campus.m1))
       (db_profiles (commit Campus.first_db
                       (auth_users_insert 20 Campus.first_db (Campus.new_user "merchant")))) = [p] /\
     profiles.id p = Campus.m1 /\
     Some "shop@x.edu" = Some (profiles.email p) /\
     profiles.full_name p = Some "Mo" /\
     role_label (profiles.role p) = "merchant") /\
  ((exists e, auth_users_insert 20 Campus.first_db (Campus.new_user "admin") = Err e) /\
   commit Campus.first_db (auth_users_insert 20 Campus.first_db (Campus.new_user "admin"))
   = Campus.first_db).
Proof.
  split.
  - apply (proj1 (identity_creation_provisions_profile 20 Campus.first_db (Campus.new_user "merchant"))).
    vm_compute. reflexivity.
  - apply (proj2 (identity_creation_provisions_profile 20 Campus.first_db (Campus.new_user "admin"))
             "admin").
    + vm_compute. reflexivity.
    + discriminate.
    + discriminate.
Defined.

(** The creation does succeed for a new key with an email and a role
    that is absent or a label of [app_role]. *)
Lemma identity_creation_succeeds (now : timestamptz) (db : database) (NEW : auth_users.row) :
  existsb (fun u => bool_decide (auth_users.id u = auth_users.id NEW)) (db_users db) = false ->
  existsb (fun p => bool_decide (profiles.id p = auth_users.id NEW)) (db_profiles db) = false ->
  auth_users.email NEW <> None ->
  (forall s, get_text (auth_users.raw_user_meta_data NEW) "role" = Some s ->
             s = "user" \/ s = "merchant") ->
  exists db', auth_users_insert now db NEW = Ok db'.
Proof.
  intros Hu Hp He Hr. unfold auth_users_insert. rewrite Hu. cbn [negb guard mbind result_bind].
  unfold on_auth_user_created, handle_new_user.
  assert (exists r, cast_app_role (get_text (auth_users.raw_user_meta_data NEW) "role") = Ok r)
    as [r ->].
  { destruct (get_text _ "role") as [s|]; [|simpl; eauto].
    destruct (Hr s eq_refl) as [-> | ->]; simpl; eauto. }
  cbn [mbind result_bind]. unfold profiles_insert.
  destruct (auth_users.email NEW) as [e|]; [|congruence].
  cbn [not_null mbind result_bind db_profiles set_users]. rewrite Hp.
  cbn [negb guard mbind result_bind db_users set_users].
  rewrite existsb_app. cbn [existsb].
  rewrite bool_decide_eq_true_2 by reflexivity. rewrite orb_true_r.
  cbn [guard mbind result_bind]. eauto.
Qed.

(** ** Print orders: constraints and defaults *)

Lemma int4_Ok_Some (v : option Z) (z : Z) : int4 v = Ok (Some z) -> v = Some z.
Proof.
  destruct v as [y|]; simpl; [|discriminate].
  destruct (int4_in_range y); congruence.
Qed.

Lemma print_orders_not_null_Ok (t : print_orders.tuple) (r : print_orders.row) :
  print_orders_not_null t = Ok r ->
  print_orders.t_user_id t = Some (print_orders.user_id r) /\
  print_orders.t_copies t = Some (print_orders.copies r) /\
  print_orders.t_status t = Some (print_orders.status r) /\
  print_orders.t_updated_at t = Some (print_orders.updated_at r).
Proof.
  unfold print_orders_not_null. intros H.
  apply bind_Ok in H as (id & _ & H).
  apply bind_Ok in H as (user_id & Huser & H).
  apply bind_Ok in H as (merchant_id & _ & H).
  apply bind_Ok in H as (file_name & _ & H).
  apply bind_Ok in H as (file_url & _ & H).
  apply bind_Ok in H as (file_size & _ & H).
  apply bind_Ok in H as (pages & _ & H).
  apply bind_Ok in H as (copies_opt & Hint & H).
  apply bind_Ok in H as (copies & Hcopies & H).
  apply bind_Ok in H as (status & Hstatus & H).
  apply bind_Ok in H as (created_at & _ & H).
  apply bind_Ok in H as (updated_at & Hupdated & H).
  injection H as <-. cbn.
  apply not_null_Ok in Huser, Hcopies, Hstatus, Hupdated. subst copies_opt.
  apply int4_Ok_Some in Hint. auto.
Qed.

Lemma print_orders_not_null_Err (t : print_orders.tuple) :
  print_orders.t_copies t = None -> exists e, print_orders_not_null t = Err e.
Proof.
  intros H. destruct (print_orders_not_null t) as [r|e] eqn:E; [|eauto].
  apply print_orders_not_null_Ok in E as (_ & E & _). congruence.
Qed.

Lemma print_orders_check_Ok (r : print_orders.row) (u : unit) :
  print_orders_check r = Ok u -> print_orders.status r ∈ status_values.
Proof.
  unfold print_orders_check. intros H. apply guard_Ok in H.
  apply bool_decide_eq_true in H. exact H.
Qed.

Lemma print_orders_check_Err (r : print_orders.row) :
  print_orders.status r ∉ status_values ->
  print_orders_check r = Err (check_violation "print_orders_status_check").
Proof.
  intros H. unfold print_orders_check. rewrite bool_decide_eq_false_2 by exact H. reflexivity.
Qed.

(** What a successful INSERT has established. *)
Lemma print_orders_insert_Ok now gen db uid returning v db' :
  print_orders_insert now gen db uid returning v = Ok db' ->
  exists r,
    print_orders_not_null (print_orders_defaults now gen v) = Ok r /\
    insert_allowed print_orders_policies db uid returning r = true /\
    print_orders.status r ∈ status_values /\
    db' = set_print_orders db (db_print_orders db ++ [r]).
Proof.
  unfold print_orders_insert. intros H.
  apply bind_Ok in H as (r & Hr & H).
  apply bind_Ok in H as ([] & Hrls & H).
  apply bind_Ok in H as ([] & Hck & H).
  apply bind_Ok in H as ([] & _ & H).
  injection H as <-. exists r.
  apply guard_Ok in Hrls. apply print_orders_check_Ok in Hck. auto.
Qed.

(** C2 (as amended).  The copy count of a print order is required and
    defaults to 1: an INSERT that leaves [copies] out stores 1, one that
    gives a number stores that number, and one that gives NULL is
    rejected. *)
Theorem copies_required_default_one (now : timestamptz) (gen : uuid) (db : database)
    (uid : option uuid) (returning : bool) (v : print_orders.values) :
  (forall db', print_orders_insert now gen db uid returning v = Ok db' ->
     exists po, db_print_orders db' = db_print_orders db ++ [po] /\
       (print_orders.v_copies v = Omitted -> print_orders.copies po = 1) /\
       (forall n, print_orders.v_copies v = Given (Some n) -> print_orders.copies po = n)) /\
  (print_orders.v_copies v = Given None ->
   exists e, print_orders_insert now gen db uid returning v = Err e).
Proof.
  split.
  - intros db' H. apply print_orders_insert_Ok in H as (r & Hr & _ & _ & ->).
    exists r. split; [reflexivity|].
    apply print_orders_not_null_Ok in Hr as (_ & Hc & _). cbn in Hc.
    split.
    + intros E. rewrite E in Hc. simpl in Hc. congruence.
    + intros n E. rewrite E in Hc. simpl in Hc. congruence.
  - intros E. unfold print_orders_insert.
    destruct (print_orders_not_null_Err (print_orders_defaults now gen v)) as [e ->].
    + cbn. rewrite E. reflexivity.
    + simpl. eauto.
Qed.

Lemma copies_required_default_one_witness :
  (exists po,
     db_print_orders
       (commit Campus.shop_db
          (print_orders_insert 50 Campus.order Campus.shop_db (Some Campus.u1) false
             (Campus.new_order Campus.u1 Campus.shop Omitted Omitted Omitted)))
     = db_print_orders Campus.shop_db ++ [po] /\
     print_orders.copies po = 1) /\
  (exists e, print_orders_insert 50 Campus.order Campus.shop_db (Some Campus.u1) false
               (Campus.new_order Campus.u1 Campus.shop (Given None) Omitted Omitted) = Err e).
Proof.
  split.
  - assert (print_orders_insert 50 Campus.order Campus.shop_db (Some Campus.u1) false
              (Campus.new_order Campus.u1 Campus.shop Omitted Omitted Omitted)
            = Ok (commit Campus.shop_db
                    (print_orders_insert 50 Campus.order Campus.shop_db (Some Campus.u1) false
                       (Campus.new_order Campus.u1 Campus.shop Omitted Omitted Omitted)))) as E
      by (vm_compute; reflexivity).
    destruct (proj1 (copies_required_default_one 50 Campus.order Campus.shop_db (Some Campus.u1)
                       false (Campus.new_order Campus.u1 Campus.shop Omitted Omitted Omitted))
                _ E) as (po & Hrows & Hdefault & _).
    exists po. split; [exact Hrows | apply Hdefault; reflexivity].
  - apply (proj2 (copies_required_default_one 50 Campus.order Campus.shop_db (Some Campus.u1) false
                    (Campus.new_order Campus.u1 Campus.shop (Given None) Omitted Omitted))).
    reflexivity.
Defined.

(** C2 as stated fails: the customer's order for 0 copies passes every
    check of the store and is kept with [copies = 0]. *)
Lemma order_with_zero_copies_is_stored :
  (db ← Campus.with_empty_order; Ok (print_orders.copies <$> db_print_orders db)) = Ok [0].
Proof. vm_compute. reflexivity. Qed.

(** ** Print orders: updates *)

(** What a successful update of one row has established. *)
Lemma print_orders_update_row_Ok now db uid st old new :
  print_orders_update_row now db uid st old = Ok new ->
  if upd_matches st old && update_targets print_orders_policies db uid (upd_reads st) old
  then print_orders.updated_at new = now /\
       print_orders.status new ∈ status_values /\
       update_stores print_orders_policies db uid (upd_reads st) new = true
  else new = old.
Proof.
  unfold print_orders_update_row.
  destruct (upd_matches st old && update_targets print_orders_policies db uid (upd_reads st) old).
  - intros H. apply bind_Ok in H as (r & Hr & H).
    apply bind_Ok in H as ([] & Hrls & H). apply bind_Ok in H as ([] & Hck & H).
    injection H as <-. apply guard_Ok in Hrls. apply print_orders_check_Ok in Hck.
    apply print_orders_not_null_Ok in Hr as (_ & _ & _ & Hup). cbn in Hup.
    split; [congruence | auto].
  - congruence.
Qed.

Lemma print_orders_update_Ok now db uid st db' :
  print_orders_update now db uid st = Ok db' ->
  exists rows,
    Forall2 (fun old new => print_orders_update_row now db uid st old = Ok new)
            (db_print_orders db) rows /\
    db' = set_print_orders db rows.
Proof.
  unfold print_orders_update. intros H.
  apply bind_Ok in H as (rows & Hrows & H). apply bind_Ok in H as ([] & _ & H).
  injection H as <-. exists rows. split; [|reflexivity].
  apply for_each_Forall2. exact Hrows.
Qed.

Lemma Forall2_Forall_transfer {A} (R : A -> A -> Prop) (P : A -> Prop) (l l' : list A) :
  Forall2 R l l' -> Forall P l -> (forall a b, R a b -> P a -> P b) -> Forall P l'.
Proof.
  intros H2 HP Hstep. induction H2 as [|a b l l' Hab _ IH]; [constructor|].
  inversion HP; subst. constructor; eauto.
Qed.

(** Statements on other tables leave [print_orders] alone. *)
Lemma auth_users_insert_print_orders now db NEW db' :
  auth_users_insert now db NEW = Ok db' -> db_print_orders db' = db_print_orders db.
Proof.
  unfold auth_users_insert, on_auth_user_created, handle_new_user, profiles_insert. intros H.
  apply bind_Ok in H as ([] & _ & H). apply bind_Ok in H as (role & _ & H).
  apply bind_Ok in H as (id & _ & H). apply bind_Ok in H as (email & _ & H).
  apply bind_Ok in H as (role' & _ & H).
  apply bind_Ok in H as ([] & _ & H). apply bind_Ok in H as ([] & _ & H).
  injection H as <-. reflexivity.
Qed.

Lemma merchants_insert_print_orders now gen db uid returning v db' :
  merchants_insert now gen db uid returning v = Ok db' -> db_print_orders db' = db_print_orders db.
Proof.
  unfold merchants_insert. intros H.
  apply bind_Ok in H as (r & _ & H). apply bind_Ok in H as ([] & _ & H).
  apply bind_Ok in H as ([] & _ & H). injection H as <-. reflexivity.
Qed.

Lemma merchants_update_print_orders db uid st db' :
  merchants_update db uid st = Ok db' -> db_print_orders db' = db_print_orders db.
Proof.
  unfold merchants_update. intros H.
  apply bind_Ok in H as (rows & _ & H). apply bind_Ok in H as ([] & _ & H).
  apply bind_Ok in H as ([] & _ & H). injection H as <-. reflexivity.
Qed.

Lemma objects_insert_print_orders foldername db uid returning o db' :
  objects_insert foldername db uid returning o = Ok db' ->
  db_print_orders db' = db_print_orders db.
Proof.
  unfold objects_insert. intros H.
  apply bind_Ok in H as ([] & _ & H). injection H as <-. reflexivity.
Qed.

Lemma step_status_valid db db' : step db db' -> status_valid db -> status_valid db'.
Proof.
  unfold status_valid. intros Hstep Hv. destruct Hstep as [now NEW db' H | id
    | now gen uid returning v db' H | uid st db' H | now gen uid returning v db' H
    | now uid st db' H | uid returning o db' H].
  - rewrite (auth_users_insert_print_orders _ _ _ _ H). exact Hv.
  - cbn [auth_users_delete db_print_orders].
    apply Forall_forall. intros po Hin. apply list_elem_of_In in Hin.
    apply filter_In in Hin as [Hin _].
    rewrite Forall_forall in Hv. apply Hv. apply list_elem_of_In. exact Hin.
  - rewrite (merchants_insert_print_orders _ _ _ _ _ _ _ H). exact Hv.
  - rewrite (merchants_update_print_orders _ _ _ _ H). exact Hv.
  - apply print_orders_insert_Ok in H as (r & _ & _ & Hs & ->).
    cbn [db_print_orders set_print_orders]. apply Forall_app. split; [exact Hv|].
    constructor; [exact Hs | constructor].
  - apply print_orders_update_Ok in H as (rows & Hrows & ->).
    cbn [db_print_orders set_print_orders].
    refine (Forall2_Forall_transfer _ _ _ _ Hrows Hv _).
    intros old new Hrow Hold. apply print_orders_update_row_Ok in Hrow.
    destruct (upd_matches st old && _); [tauto | congruence].
  - rewrite (objects_insert_print_orders _ _ _ _ _ _ H). exact Hv.
Qed.

Lemma reachable_status_valid db : reachable db -> status_valid db.
Proof.
  induction 1 as [|db db' _ IH Hstep].
  - constructor.
  - eapply step_status_valid; eauto.
Qed.

(** C6.  In every database that statements can build, the status of each
    print order is one of [pending], [printing], [completed],
    [cancelled]; an INSERT that gives another status is rejected, and so
    is an UPDATE that sets another status on a row it operates on; an
    INSERT that leaves the status out stores [pending]. *)
Theorem print_orders_status_checked :
  (forall db, reachable db ->
     Forall (fun po => print_orders.status po ∈ ["pending"; "printing"; "completed"; "cancelled"])
            (db_print_orders db)) /\
  (forall now gen db uid returning v s,
     print_orders.v_status v = Given (Some s) -> s ∉ status_values ->
     exists e, print_orders_insert now gen db uid returning v = Err e) /\
  (forall now db uid st s po,
     print_orders.v_status (upd_set st) = Given (Some s) -> s ∉ status_values ->
     In po (db_print_orders db) ->
     upd_matches st po && update_targets print_orders_policies db uid (upd_reads st) po = true ->
     exists e, print_orders_update now db uid st = Err e) /\
  (forall now gen db uid returning v db',
     print_orders.v_status v = Omitted ->
     print_orders_insert now gen db uid returning v = Ok db' ->
     exists po, db_print_orders db' = db_print_orders db ++ [po] /\
                print_orders.status po = "pending").
Proof.
  refine (conj _ (conj _ (conj _ _))).
  - intros db H. exact (reachable_status_valid db H).
  - intros now gen db uid returning v s Hv Hs.
    destruct (print_orders_insert now gen db uid returning v) as [db'|e] eqn:E; [|eauto].
    apply print_orders_insert_Ok in E as (r & Hr & _ & Hin & _).
    apply print_orders_not_null_Ok in Hr as (_ & _ & Hst & _). cbn in Hst.
    rewrite Hv in Hst. simpl in Hst. congruence.
  - intros now db uid st s po Hv Hs Hin Ht. unfold print_orders_update.
    destruct (for_each_Err (print_orders_update_row now db uid st) (db_print_orders db) po Hin)
      as [e ->]; [|simpl; eauto].
    destruct (print_orders_update_row now db uid st po) as [new|e] eqn:E; [|eauto].
    exfalso. unfold print_orders_update_row in E. rewrite Ht in E.
    apply bind_Ok in E as (r & Hr & E).
    apply bind_Ok in E as ([] & _ & E). apply bind_Ok in E as ([] & Hck & E).
    apply print_orders_check_Ok in Hck.
    apply print_orders_not_null_Ok in Hr as (_ & _ & Hst & _). cbn in Hst.
    rewrite Hv in Hst. simpl in Hst. congruence.
  - intros now gen db uid returning v db' Hv H.
    apply print_orders_insert_Ok in H as (r & Hr & _ & _ & ->).
    exists r. split; [reflexivity|].
    apply print_orders_not_null_Ok in Hr as (_ & _ & Hst & _). cbn in Hst.
    rewrite Hv in Hst. simpl in Hst. congruence.
Qed.

(** An insert that passes row-level security fails on the CHECK constraint itself. *)
Lemma shipped_order_is_rejected :
  print_orders_insert 50 Campus.order Campus.shop_db (Some Campus.u1) false
    (Campus.new_order Campus.u1 Campus.shop Omitted (Given (Some "shipped")) Omitted)
  = Err (check_violation "print_orders_status_check") /\
  print_orders_update 60 Campus.open_db (Some Campus.m1) (Campus.set_status Campus.order "shipped")
  = Err (check_violation "print_orders_status_check").
Proof. split; vm_compute; reflexivity. Qed.

Lemma campus_reachable : reachable Campus.first_db /\ reachable Campus.open_db.
Proof.
  assert (reachable Campus.first_db) as H1.
  { eapply reachable_step; [exact reachable_empty|].
    eapply (step_auth_users_insert _ 10 (Campus.signup Campus.u1 "a@x.edu" [("full_name", JString "Ann")])).
    vm_compute. reflexivity. }
  split; [exact H1|].
  eapply reachable_step.
  - eapply reachable_step.
    + eapply reachable_step.
      * eapply reachable_step.
        -- eapply reachable_step; [exact H1|].
           eapply (step_auth_users_insert _ 20 (Campus.new_user "merchant")).
           vm_compute. reflexivity.
        -- eapply (step_auth_users_insert _ 30 (Campus.signup Campus.u2 "b@x.edu" [])).
           vm_compute. reflexivity.
      * eapply (step_merchants_insert _ 40 Campus.shop (Some Campus.m1) false
                  (Campus.new_shop Campus.m1 Omitted)).
        vm_compute. reflexivity.
    + eapply (step_objects_insert _ (Some Campus.u1) false Campus.uploaded).
      vm_compute. reflexivity.
  - eapply (step_print_orders_insert _ 50 Campus.order (Some Campus.u1) false
              (Campus.new_order Campus.u1 Campus.shop (Given (Some 2)) Omitted Omitted)).
    vm_compute. reflexivity.
Qed.

Lemma shipped_is_no_status : "shipped" ∉ status_values.
Proof.
  unfold status_values. intros H.
  repeat (apply elem_of_cons in H as [H|H]; [discriminate|]).
  inversion H.
Qed.

Lemma print_orders_status_checked_witness :
  Forall (fun po => print_orders.status po ∈ ["pending"; "printing"; "completed"; "cancelled"])
         (db_print_orders Campus.open_db) /\
  (exists e, print_orders_insert 50 Campus.order Campus.shop_db (Some Campus.u1) false
               (Campus.new_order Campus.u1 Campus.shop Omitted (Given (Some "shipped")) Omitted)
             = Err e) /\
  (exists e, print_orders_update 60 Campus.open_db (Some Campus.m1)
               (Campus.set_status Campus.order "shipped") = Err e) /\
  (exists po,
     db_print_orders (commit Campus.shop_db
        (print_orders_insert 50 Campus.order Campus.shop_db (Some Campus.u1) false
           (Campus.new_order Campus.u1 Campus.shop Omitted Omitted Omitted)))
     = db_print_orders Campus.shop_db ++ [po] /\
     print_orders.status po = "pending").
Proof.
  destruct print_orders_status_checked as (H1 & H2 & H3 & H4).
  refine (conj _ (conj _ (conj _ _))).
  - apply H1. exact (proj2 campus_reachable).
  - apply (H2 50 Campus.order Campus.shop_db (Some Campus.u1) false _ "shipped").
    + reflexivity.
    + exact shipped_is_no_status.
  - apply (H3 60 Campus.open_db (Some Campus.m1) (Campus.set_status Campus.order "shipped")
              "shipped" Campus.placed_order).
    + reflexivity.
    + exact shipped_is_no_status.
    + vm_compute. left. reflexivity.
    + vm_compute. reflexivity.
  - apply (H4 50 Campus.order Campus.shop_db (Some Campus.u1) false
              (Campus.new_order Campus.u1 Campus.shop Omitted Omitted Omitted)).
    + reflexivity.
    + vm_compute. reflexivity.
Defined.

(** ** Print orders: the update timestamp *)

(** C4 (as amended).  The trigger function sets [updated_at] to the
    current time whatever the row holds, and every row an UPDATE of
    [print_orders] operates on is stored with [updated_at] equal to the
    current time, whatever the SET list assigns ([updated_at] included);
    the value is later than the row's previous one whenever the previous
    one is earlier than the current time.  Rows the UPDATE does not
    operate on are left as they are. *)
Theorem print_orders_update_stamps_now (now : timestamptz) :
  (forall NEW, print_orders.t_updated_at (update_updated_at_column now NEW) = Some now) /\
  (forall db uid st db',
     print_orders_update now db uid st = Ok db' ->
     Forall2 (fun old new =>
                if upd_matches st old
                   && update_targets print_orders_policies db uid (upd_reads st) old
                then print_orders.updated_at new = now /\
                     (print_orders.updated_at old < now ->
                      print_orders.updated_at old < print_orders.updated_at new)
                else new = old)
             (db_print_orders db) (db_print_orders db')).
Proof.
  split; [reflexivity|].
  intros db uid st db' H. apply print_orders_update_Ok in H as (rows & Hrows & ->).
  cbn [db_print_orders set_print_orders].
  eapply Forall2_impl; [exact Hrows|]. intros old new Hrow. simpl in Hrow.
  apply print_orders_update_row_Ok in Hrow.
  destruct (upd_matches st old && _); [|exact Hrow].
  destruct Hrow as (-> & _). split; [reflexivity | auto].
Qed.

Lemma print_orders_update_stamps_now_witness :
  Forall2 (fun old new =>
             if upd_matches (Campus.set_status Campus.order "printing") old
                && update_targets print_orders_policies Campus.open_db (Some Campus.m1)
                     (upd_reads (Campus.set_status Campus.order "printing")) old
             then print_orders.updated_at new = 60 /\
                  (print_orders.updated_at old < 60 ->
                   print_orders.updated_at old < print_orders.updated_at new)
             else new = old)
          (db_print_orders Campus.open_db)
          (db_print_orders
             (commit Campus.open_db
                (print_orders_update 60 Campus.open_db (Some Campus.m1)
                   (Campus.set_status Campus.order "printing")))).
Proof.
  apply (proj2 (print_orders_update_stamps_now 60) Campus.open_db (Some Campus.m1)
           (Campus.set_status Campus.order "printing")).
  vm_compute. reflexivity.
Defined.

(** C4 as stated fails.  The customer's INSERT may give [updated_at]
    itself; an order stored at time 50 with [updated_at = 200] and
    updated by the shop at time 100 goes from 200 back to 100. *)
Lemma postdated_order_moves_back :
  (db ← Campus.with_postdated_order;
   db' ← print_orders_update 100 db (Some Campus.m1) (Campus.set_status Campus.order "printing");
   Ok (print_orders.updated_at <$> db_print_orders db,
       print_orders.updated_at <$> db_print_orders db'))
  = Ok ([200], [100]).
Proof. vm_compute. reflexivity. Qed.

(** ** The bucket: uploads and reads *)

Section StorageFacts.
Variable foldername : string -> list string.

Lemma in_own_folder_holds db uid o :
  Sql.holds (in_own_folder foldername db uid o) = true <->
  storage_objects.bucket_id o = "print-files" /\
  exists u, uid = Some u /\ first_folder foldername (storage_objects.name o) = Some u.
Proof.
  unfold in_own_folder. rewrite holds_and, andb_true_iff, !holds_eq. split.
  - intros [(b & Hb & Hb') (u & Hu & Hf)]. split; [congruence | eauto].
  - intros [Hb (u & Hu & Hf)]. split; [exists "print-files"; split; congruence | eauto].
Qed.

Lemma in_order_of_own_shop_holds db uid o :
  Sql.holds (in_order_of_own_shop db uid o) = true <->
  storage_objects.bucket_id o = "print-files" /\ file_of_own_shop_order db uid o.
Proof.
  unfold in_order_of_own_shop, file_of_own_shop_order.
  rewrite holds_and, andb_true_iff, holds_eq, holds_Some. split.
  - intros [(b & Hb & Hb') E]. split; [congruence|].
    apply existsb_exists in E as (po & Hpo & E).
    apply existsb_exists in E as (m & Hm & E).
    apply andb_true_iff in E as [E Hlike]. apply andb_true_iff in E as [Hid Hu].
    apply bool_decide_eq_true in Hid. apply holds_eq in Hu as (u & Hu & Hu').
    apply visible_merchants_In in Hm as [Hm Ha].
    unfold visible_print_orders in Hpo. apply filter_In in Hpo as [Hpo _].
    exists u, po, m. repeat split; auto; congruence.
  - intros [Hb (u & po & m & -> & Hpo & Hm & Ha & Hid & Hu & Hlike)].
    split; [exists "print-files"; split; congruence|].
    apply existsb_exists. exists po. split.
    + unfold visible_print_orders. apply filter_In. split; [exact Hpo|].
      apply print_orders_select_qual. exists u. split; [reflexivity|]. right.
      exists m. auto.
    + apply existsb_exists. exists m. split; [apply visible_merchants_In; auto|].
      rewrite !andb_true_iff. repeat split.
      * apply bool_decide_eq_true. exact Hid.
      * apply holds_eq. exists u. split; congruence.
      * exact Hlike.
Qed.

Lemma objects_insert_check db uid o :
  with_check_option (objects_policies foldername) INSERT false db uid o
  = Sql.holds (in_own_folder foldername db uid o).
Proof. unfold with_check_option; simpl. rewrite !orb_false_r. reflexivity. Qed.

Lemma objects_select_qual db uid o :
  security_qual (objects_policies foldername) SELECT db uid o
  = Sql.holds (in_own_folder foldername db uid o) || Sql.holds (in_order_of_own_shop db uid o).
Proof. unfold security_qual; simpl. rewrite !orb_false_r. reflexivity. Qed.

Lemma objects_select_check db uid o :
  with_check_option (objects_policies foldername) SELECT true db uid o
  = Sql.holds (in_own_folder foldername db uid o) || Sql.holds (in_order_of_own_shop db uid o).
Proof. unfold with_check_option; simpl. rewrite !orb_false_r. reflexivity. Qed.

Lemma in_own_folder_set_objects db uid o l :
  in_own_folder foldername (set_objects db l) uid o = in_own_folder foldername db uid o.
Proof. reflexivity. Qed.

(** C5.  In the [print-files] bucket, an upload by an actor whose key is
    not the first folder of the object name is denied; an upload under
    the actor's own key succeeds, and the actor can then read the
    stored object. *)
Theorem upload_requires_own_folder (db : database) (u : uuid) (returning : bool)
    (o : storage_objects.row) :
  storage_objects.bucket_id o = "print-files" ->
  (first_folder foldername (storage_objects.name o) <> Some u ->
   objects_insert foldername db (Some u) returning o = Err (row_security_violation "objects")) /\
  (first_folder foldername (storage_objects.name o) = Some u ->
   objects_insert foldername db (Some u) returning o
   = Ok (set_objects db (db_objects db ++ [o])) /\
   In o (objects_select foldername (set_objects db (db_objects db ++ [o])) (Some u))).
Proof.
  intros Hb. split.
  - intros Hne. unfold objects_insert, insert_allowed. rewrite objects_insert_check.
    destruct (Sql.holds (in_own_folder foldername db (Some u) o)) eqn:E; [|reflexivity].
    apply in_own_folder_holds in E as (_ & u' & Hu & Hf). congruence.
  - intros Hf.
    assert (Sql.holds (in_own_folder foldername db (Some u) o) = true) as E.
    { apply in_own_folder_holds. eauto. }
    split.
    + unfold objects_insert, insert_allowed.
      rewrite objects_insert_check, objects_select_check, E.
      destruct returning; reflexivity.
    + unfold objects_select. apply filter_In. split.
      * cbn [db_objects set_objects]. apply in_or_app. right. left. reflexivity.
      * unfold select_allowed. rewrite objects_select_qual, in_own_folder_set_objects, E.
        reflexivity.
Qed.

(** A request without identity cannot upload at all. *)
Lemma upload_without_identity_denied (db : database) (returning : bool) (o : storage_objects.row) :
  objects_insert foldername db None returning o = Err (row_security_violation "objects").
Proof.
  unfold objects_insert, insert_allowed. rewrite objects_insert_check.
  destruct (Sql.holds (in_own_folder foldername db None o)) eqn:E; [|reflexivity].
  apply in_own_folder_holds in E as (_ & u' & Hu & _). discriminate.
Qed.

(** C7 (as amended).  The policy for merchants lets an actor read an
    object exactly when the object is in [print-files] and the actor
    owns an active merchant with a print order addressed to it whose
    [file_url] matches ['%' || name]; an actor can read an object
    exactly when that holds or the object is in [print-files] under the
    actor's own key as first folder. *)
Theorem objects_read_iff (db : database) (uid : option uuid) (o : storage_objects.row) :
  (Sql.holds (in_order_of_own_shop db uid o) = true <->
   storage_objects.bucket_id o = "print-files" /\ file_of_own_shop_order db uid o) /\
  (select_allowed (objects_policies foldername) db uid o = true <->
   storage_objects.bucket_id o = "print-files" /\
   ((exists u, uid = Some u /\ first_folder foldername (storage_objects.name o) = Some u)
    \/ file_of_own_shop_order db uid o)).
Proof.
  split; [apply in_order_of_own_shop_holds|].
  unfold select_allowed.
  rewrite objects_select_qual, orb_true_iff, in_own_folder_holds, in_order_of_own_shop_holds.
  tauto.
Qed.

(** While no shop is closed, the policy for merchants grants what its
    text says of the whole [merchants] table. *)
Lemma shop_files_when_shops_active (db : database) (uid : option uuid) (o : storage_objects.row) :
  (forall m, In m (db_merchants db) -> merchants.is_active m = true) ->
  (Sql.holds (in_order_of_own_shop db uid o) = true <->
   storage_objects.bucket_id o = "print-files" /\ file_of_any_shop_order db uid o).
Proof.
  intros Hall. rewrite in_order_of_own_shop_holds.
  unfold file_of_own_shop_order, file_of_any_shop_order. split.
  - intros [Hb (u & po & m & Hu & Hpo & Hm & _ & Hrest)]. split; [exact Hb|].
    exists u, po, m. tauto.
  - intros [Hb (u & po & m & Hu & Hpo & Hm & Hrest)]. split; [exact Hb|].
    exists u, po, m. pose proof (Hall m Hm). tauto.
Qed.

End StorageFacts.

Lemma upload_requires_own_folder_witness :
  objects_insert storage_foldername Campus.shop_db (Some Campus.u2) false Campus.uploaded
  = Err (row_security_violation "objects") /\
  objects_insert storage_foldername Campus.shop_db (Some Campus.u1) false Campus.uploaded
  = Ok (set_objects Campus.shop_db (db_objects Campus.shop_db ++ [Campus.uploaded])) /\
  In Campus.uploaded
     (objects_select storage_foldername
        (set_objects Campus.shop_db (db_objects Campus.shop_db ++ [Campus.uploaded]))
        (Some Campus.u1)).
Proof.
  split.
  - apply (upload_requires_own_folder storage_foldername Campus.shop_db Campus.u2 false
             Campus.uploaded).
    + reflexivity.
    + vm_compute. discriminate.
  - apply (upload_requires_own_folder storage_foldername Campus.shop_db Campus.u1 false
             Campus.uploaded).
    + reflexivity.
    + vm_compute. reflexivity.
Defined.

(** C7 as stated fails in both directions.  The shop owner [m1] reads
    the price list kept under [m1]'s own key although no order names it;
    and once the shop is closed, [m1] cannot read the file of the order
    placed with the shop. *)
Lemma shop_files_counterexample :
  Campus.with_price_list = Ok Campus.price_list_db /\
  In (Campus.the_shop true) (db_merchants Campus.price_list_db) /\
  select_allowed (objects_policies storage_foldername) Campus.price_list_db (Some Campus.m1)
    Campus.price_list = true /\
  ~ file_of_any_shop_order Campus.price_list_db (Some Campus.m1) Campus.price_list /\
  In (Campus.the_shop false) (db_merchants Campus.closed_db) /\
  In Campus.uploaded (db_objects Campus.closed_db) /\
  file_of_any_shop_order Campus.closed_db (Some Campus.m1) Campus.uploaded /\
  select_allowed (objects_policies storage_foldername) Campus.closed_db (Some Campus.m1)
    Campus.uploaded = false.
Proof.
  refine (conj _ (conj _ (conj _ (conj _ (conj _ (conj _ (conj _ _))))))).
  - vm_compute. reflexivity.
  - vm_compute. left. reflexivity.
  - vm_compute. reflexivity.
  - intros (u & po & m & _ & Hpo & _). vm_compute in Hpo. exact Hpo.
  - vm_compute. left. reflexivity.
  - vm_compute. left. reflexivity.
  - exists Campus.m1, Campus.placed_order, (Campus.the_shop false).
    refine (conj _ (conj _ (conj _ (conj _ (conj _ _))))).
    + reflexivity.
    + vm_compute. left. reflexivity.
    + vm_compute. left. reflexivity.
    + reflexivity.
    + reflexivity.
    + vm_compute. reflexivity.
  - vm_compute. reflexivity.
Qed.

(** * Further properties *)

(** ** Profiles *)

Lemma profiles_quals (db : database) (uid : option uuid) (p : profiles.row) :
  security_qual profiles_policies SELECT db uid p = Sql.holds (Sql.eq uid (Some (profiles.id p))) /\
  security_qual profiles_policies UPDATE db uid p = Sql.holds (Sql.eq uid (Some (profiles.id p))) /\
  with_check_option profiles_policies SELECT true db uid p
  = Sql.holds (Sql.eq uid (Some (profiles.id p))) /\
  with_check_option profiles_policies UPDATE false db uid p
  = Sql.holds (Sql.eq uid (Some (profiles.id p))) /\
  with_check_option profiles_policies INSERT false db uid p
  = Sql.holds (Sql.eq uid (Some (profiles.id p))).
Proof.
  unfold security_qual, with_check_option; simpl.
  rewrite ?orb_false_r. auto.
Qed.

(** X1.  A profile can be read only by its own user; a row can be
    inserted into [profiles] only under the caller's own key; and an
    update is let through exactly when the row is the caller's own and
    keeps its key, so a user may change any other column of the own
    profile, the role included. *)
Theorem profiles_own_only (db : database) (uid : option uuid) (p : profiles.row) :
  (select_allowed profiles_policies db uid p = true <-> uid = Some (profiles.id p)) /\
  (forall reads, insert_allowed profiles_policies db uid reads p = true
                 <-> uid = Some (profiles.id p)) /\
  (forall reads new, update_allowed profiles_policies db uid reads p new = true
                     <-> uid = Some (profiles.id p) /\ profiles.id new = profiles.id p).
Proof.
  destruct (profiles_quals db uid p) as (Hs & Hu & Hsc & Huc & Hic).
  refine (conj _ (conj _ _)).
  - unfold select_allowed. rewrite Hs. apply holds_eq_uid.
  - intros reads. unfold insert_allowed. rewrite Hic, andb_true_iff, holds_eq_uid.
    destruct reads; [rewrite Hsc, holds_eq_uid|]; tauto.
  - intros reads new. destruct (profiles_quals db uid new) as (_ & _ & Hsc' & Huc' & _).
    unfold update_allowed, update_targets, update_stores.
    rewrite Hu, Huc', !andb_true_iff, !holds_eq_uid.
    destruct reads; [rewrite Hs, Hsc', !holds_eq_uid|]; split.
    + intros [[H1 _] [H2 _]]. split; congruence.
    + intros [H1 H2]. rewrite H2. tauto.
    + intros [[H1 _] [H2 _]]. split; congruence.
    + intros [H1 H2]. rewrite H2. tauto.
Qed.

(** X2.  An identity without an email address cannot be created: the
    trigger's INSERT violates NOT NULL on [profiles.email], and the
    failure takes the identity with it. *)
Theorem identity_without_email_fails (now : timestamptz) (db : database) (NEW : auth_users.row) :
  auth_users.email NEW = None ->
  (exists e, auth_users_insert now db NEW = Err e) /\
  commit db (auth_users_insert now db NEW) = db.
Proof.
  intros He.
  assert (exists e, auth_users_insert now db NEW = Err e) as [e E].
  { destruct (auth_users_insert now db NEW) as [db'|e] eqn:E; [|eauto]. exfalso.
    unfold auth_users_insert, on_auth_user_created, handle_new_user, profiles_insert in E.
    apply bind_Ok in E as ([] & _ & E). apply bind_Ok in E as (role & _ & E).
    apply bind_Ok in E as (id & _ & E). apply bind_Ok in E as (email & Hemail & E).
    rewrite He in Hemail. discriminate. }
  split; [eauto|]. rewrite E. reflexivity.
Qed.

Lemma identity_without_email_fails_witness :
  (exists e, auth_users_insert 20 Campus.first_db Cases.no_email = Err e) /\
  commit Campus.first_db (auth_users_insert 20 Campus.first_db Cases.no_email) = Campus.first_db.
Proof.
  apply (identity_without_email_fails 20 Campus.first_db Cases.no_email).
  reflexivity.
Defined.

(** ** Merchants *)

Lemma merchants_not_null_Ok (t : merchants.tuple) (r : merchants.row) :
  merchants_not_null t = Ok r ->
  merchants.t_id t = Some (merchants.id r) /\
  merchants.t_user_id t = Some (merchants.user_id r) /\
  merchants.t_is_active t = Some (merchants.is_active r) /\
  merchants.t_created_at t = Some (merchants.created_at r).
Proof.
  unfold merchants_not_null. intros H.
  apply bind_Ok in H as (id & Hid & H). apply bind_Ok in H as (user_id & Hu & H).
  apply bind_Ok in H as (shop_name & _ & H). apply bind_Ok in H as (is_active & Ha & H).
  apply bind_Ok in H as (created_at & Hc & H). injection H as <-. cbn.
  apply not_null_Ok in Hid, Hu, Ha, Hc. auto.
Qed.

Lemma merchants_insert_check db uid m :
  with_check_option merchants_policies INSERT false db uid m = true
  <-> uid = Some (merchants.user_id m).
Proof. unfold with_check_option; simpl. rewrite orb_false_r. apply holds_eq_uid. Qed.

Lemma merchants_select_check db uid m :
  with_check_option merchants_policies SELECT true db uid m = merchants.is_active m.
Proof. unfold with_check_option; simpl. destruct (merchants.is_active m); reflexivity. Qed.


(** X3.  A shop can only be opened in the caller's own name: the row a
    successful INSERT into [merchants] adds belongs to the caller; the
    shop is active, its id generated and its creation time the current
    time unless the statement says otherwise; and with a RETURNING
    clause a shop that is not active is refused. *)
Theorem merchants_insert_own (now : timestamptz) (gen : uuid) (db db' : database)
    (uid : option uuid) (returning : bool) (v : merchants.values) :
  merchants_insert now gen db uid returning v = Ok db' ->
  exists m, db_merchants db' = db_merchants db ++ [m] /\
    uid = Some (merchants.user_id m) /\
    (merchants.v_is_active v = Omitted -> merchants.is_active m = true) /\
    (merchants.v_id v = Omitted -> merchants.id m = gen) /\
    (merchants.v_created_at v = Omitted -> merchants.created_at m = now) /\
    (returning = true -> merchants.is_active m = true).
Proof.
  unfold merchants_insert. intros H.
  apply bind_Ok in H as (m & Hm & H). apply bind_Ok in H as ([] & Hrls & H).
  apply bind_Ok in H as ([] & _ & H). injection H as <-.
  apply guard_Ok in Hrls. unfold insert_allowed in Hrls.
  apply andb_true_iff in Hrls as [Hins Hsel]. apply merchants_insert_check in Hins.
  apply merchants_not_null_Ok in Hm as (Hid & _ & Ha & Hc). cbn in Hid, Ha, Hc.
  exists m. refine (conj eq_refl (conj Hins (conj _ (conj _ (conj _ _))))).
  - intros E. rewrite E in Ha. simpl in Ha. congruence.
  - intros E. rewrite E in Hid. simpl in Hid. congruence.
  - intros E. rewrite E in Hc. simpl in Hc. congruence.
  - intros ->. rewrite merchants_select_check in Hsel. exact Hsel.
Qed.

Lemma merchants_insert_own_witness :
  exists m, db_merchants Campus.shop_db = db_merchants Cases.users_db ++ [m] /\
    Some Campus.m1 = Some (merchants.user_id m) /\
    merchants.is_active m = true /\ merchants.id m = Campus.shop /\ merchants.created_at m = 40.
Proof.
  assert (merchants_insert 40 Campus.shop Cases.users_db (Some Campus.m1) false
            (Campus.new_shop Campus.m1 Omitted) = Ok Campus.shop_db) as E
    by (vm_compute; reflexivity).
  destruct (merchants_insert_own 40 Campus.shop Cases.users_db Campus.shop_db (Some Campus.m1)
              false (Campus.new_shop Campus.m1 Omitted) E)
    as (m & Hrows & Hown & Hactive & Hid & Hcreated & _).
  exists m. refine (conj Hrows (conj Hown (conj _ (conj _ _)))).
  - apply Hactive. reflexivity.
  - apply Hid. reflexivity.
  - apply Hcreated. reflexivity.
Defined.



(** ** Keys and references *)

Lemma existsb_key_In {A} (key : A -> uuid) (k : uuid) (l : list A) :
  existsb (fun a => bool_decide (key a = k)) l = true <-> In k (key <$> l).
Proof.
  rewrite existsb_exists, in_map_iff. split.
  - intros (a & Ha & E). apply bool_decide_eq_true in E. eauto.
  - intros (a & E & Ha). exists a. split; [exact Ha | apply bool_decide_eq_true; exact E].
Qed.

Lemma NoDup_fmap_filter {A B} (f : A -> B) (p : A -> bool) (l : list A) :
  NoDup (f <$> l) -> NoDup (f <$> List.filter p l).
Proof.
  induction l as [|a l IH]; simpl; [auto|].
  intros H. apply NoDup_cons in H as [Hnotin Hnd].
  destruct (p a); simpl; [|auto].
  apply NoDup_cons. split; [|auto].
  intros Hin. apply Hnotin. apply list_elem_of_In. apply list_elem_of_In in Hin.
  apply in_map_iff in Hin as (b & E & Hb). apply filter_In in Hb as [Hb _].
  apply in_map_iff. eauto.
Qed.

Lemma fmap_filter_key {A} (key : A -> uuid) (q : uuid -> bool) (l : list A) :
  key <$> List.filter (fun a => q (key a)) l = List.filter q (key <$> l).
Proof.
  induction l as [|a l IH]; [reflexivity|].
  cbn [List.filter]. rewrite fmap_cons. cbn [List.filter].
  destruct (q (key a)); [rewrite fmap_cons|]; rewrite IH; reflexivity.
Qed.

Lemma NoDup_snoc {A} (l : list A) (a : A) : NoDup l -> ~ In a l -> NoDup (l ++ [a]).
Proof.
  intros Hl Ha. apply NoDup_app. refine (conj Hl (conj _ _)).
  - intros x Hx Hx'. apply list_elem_of_In in Hx. apply list_elem_of_singleton in Hx'.
    subst. contradiction.
  - apply NoDup_singleton.
Qed.

Lemma auth_users_insert_Ok now db NEW db' :
  auth_users_insert now db NEW = Ok db' ->
  exists p, db' = set_profiles (set_users db (db_users db ++ [NEW])) (db_profiles db ++ [p]) /\
            profiles.id p = auth_users.id NEW /\
            ~ In (auth_users.id NEW) (auth_users.id <$> db_users db).
Proof.
  unfold auth_users_insert, on_auth_user_created, handle_new_user, profiles_insert. intros H.
  apply bind_Ok in H as ([] & Hpk & H). apply bind_Ok in H as (role & _ & H).
  apply bind_Ok in H as (id & Hid & H). apply bind_Ok in H as (email & _ & H).
  apply bind_Ok in H as (role' & _ & H).
  apply bind_Ok in H as ([] & _ & H). apply bind_Ok in H as ([] & _ & H).
  injection H as <-. injection Hid as <-. eexists. split; [reflexivity|]. split; [reflexivity|].
  apply guard_Ok in Hpk. apply negb_true_iff in Hpk.
  intros Hin. apply existsb_key_In in Hin. congruence.
Qed.

Lemma merchants_keys_Ok db rows u :
  merchants_keys db rows = Ok u ->
  NoDup (merchants.id <$> rows) /\ NoDup (merchants.user_id <$> rows) /\
  forall m, In m rows -> In (merchants.user_id m) (profiles.id <$> db_profiles db).
Proof.
  unfold merchants_keys. intros H.
  apply bind_Ok in H as ([] & H1 & H). apply bind_Ok in H as ([] & H2 & H).
  apply guard_Ok in H1, H2, H.
  apply bool_decide_eq_true in H1, H2. refine (conj H1 (conj H2 _)).
  intros m Hm. rewrite forallb_forall in H. apply existsb_key_In. apply H. exact Hm.
Qed.

Lemma print_orders_keys_iff db rows :
  print_orders_keys db rows = Ok tt <->
  NoDup (print_orders.id <$> rows) /\
  (forall po, In po rows -> In (print_orders.user_id po) (profiles.id <$> db_profiles db)) /\
  (forall po, In po rows -> In (print_orders.merchant_id po) (merchants.id <$> db_merchants db)).
Proof.
  unfold print_orders_keys. split.
  - intros H. apply bind_Ok in H as ([] & H1 & H). apply bind_Ok in H as ([] & H2 & H).
    apply guard_Ok in H1, H2, H. apply bool_decide_eq_true in H1.
    rewrite forallb_forall in H2, H.
    refine (conj H1 (conj _ _)); intros po Hpo; apply existsb_key_In; auto.
  - intros (H1 & H2 & H3).
    rewrite bool_decide_eq_true_2 by exact H1. simpl.
    assert (forallb (fun po => existsb (fun p => bool_decide (profiles.id p = print_orders.user_id po))
                                       (db_profiles db)) rows = true) as ->.
    { apply forallb_forall. intros po Hpo. apply existsb_key_In. auto. }
    simpl.
    assert (forallb (fun po => existsb (fun m => bool_decide (merchants.id m = print_orders.merchant_id po))
                                       (db_merchants db)) rows = true) as ->.
    { apply forallb_forall. intros po Hpo. apply existsb_key_In. auto. }
    reflexivity.
Qed.

Lemma int4_Ok (v w : option Z) : int4 v = Ok w -> w = v /\ int4 w = Ok w.
Proof.
  destruct v as [z|]; simpl.
  - destruct (int4_in_range z) eqn:E; [|discriminate].
    intros H. injection H as <-. simpl. rewrite E. auto.
  - intros H. injection H as <-. auto.
Qed.

Lemma print_orders_not_null_int4 (t : print_orders.tuple) (r : print_orders.row) :
  print_orders_not_null t = Ok r ->
  int4 (print_orders.file_size r) = Ok (print_orders.file_size r) /\
  int4 (print_orders.pages r) = Ok (print_orders.pages r) /\
  int4_in_range (print_orders.copies r) = true.
Proof.
  unfold print_orders_not_null. intros H.
  apply bind_Ok in H as (id & _ & H). apply bind_Ok in H as (user_id & _ & H).
  apply bind_Ok in H as (merchant_id & _ & H). apply bind_Ok in H as (file_name & _ & H).
  apply bind_Ok in H as (file_url & _ & H). apply bind_Ok in H as (file_size & Hsize & H).
  apply bind_Ok in H as (pages & Hpages & H). apply bind_Ok in H as (copies_opt & Hint & H).
  apply bind_Ok in H as (copies & Hcopies & H). apply bind_Ok in H as (status & _ & H).
  apply bind_Ok in H as (created_at & _ & H). apply bind_Ok in H as (updated_at & _ & H).
  injection H as <-. cbn.
  apply int4_Ok in Hsize as [_ Hsize]. apply int4_Ok in Hpages as [_ Hpages].
  apply int4_Ok in Hint as [_ Hint]. apply not_null_Ok in Hcopies. subst copies_opt.
  refine (conj Hsize (conj Hpages _)). simpl in Hint.
  destruct (int4_in_range copies); [reflexivity | discriminate].
Qed.

Lemma step_consistent db db' : step db db' -> consistent db -> consistent db'.
Proof.
  intros Hstep [Hu Hpu Hm Hmu Hmf Ho Hou Hom Hoi].
  destruct Hstep as [now NEW db' H | id
    | now gen uid returning v db' H | uid st db' H | now gen uid returning v db' H
    | now uid st db' H | uid returning o db' H].
  - apply auth_users_insert_Ok in H as (p & -> & Hp & Hfresh).
    constructor; cbn [db_users db_profiles db_merchants db_print_orders set_profiles set_users];
      auto.
    + rewrite fmap_app. apply NoDup_snoc; auto.
    + rewrite !fmap_app, Hpu. simpl. rewrite Hp. reflexivity.
    + intros m Hin. rewrite fmap_app. apply in_or_app. left. auto.
    + intros po Hin. rewrite fmap_app. apply in_or_app. left. auto.
  - pose proof (fmap_filter_key profiles.id (fun k => negb (bool_decide (k = id)))
                  (db_profiles db)) as Ep.
    pose proof (fmap_filter_key auth_users.id (fun k => negb (bool_decide (k = id)))
                  (db_users db)) as Eu.
    cbv beta in Ep, Eu.
    constructor; cbn [auth_users_delete db_users db_profiles db_merchants db_print_orders].
    + apply NoDup_fmap_filter. exact Hu.
    + rewrite Ep, Eu, Hpu. reflexivity.
    + apply NoDup_fmap_filter. exact Hm.
    + apply NoDup_fmap_filter. exact Hmu.
    + intros m Hin. apply filter_In in Hin as [Hin Hne].
      rewrite Ep. apply filter_In. split; [auto | exact Hne].
    + apply NoDup_fmap_filter. exact Ho.
    + intros po Hin. apply filter_In in Hin as [Hin Hne].
      apply andb_true_iff in Hne as [Hne _].
      rewrite Ep. apply filter_In. split; [auto | exact Hne].
    + intros po Hin. apply filter_In in Hin as [Hin Hne].
      apply andb_true_iff in Hne as [_ Hne]. apply existsb_key_In in Hne. exact Hne.
    + intros po Hin. apply filter_In in Hin as [Hin _]. auto.
  - unfold merchants_insert in H.
    apply bind_Ok in H as (r & _ & H). apply bind_Ok in H as ([] & _ & H).
    apply bind_Ok in H as ([] & Hk & H). injection H as <-.
    apply merchants_keys_Ok in Hk as (K1 & K2 & K3).
    constructor; cbn [db_users db_profiles db_merchants db_print_orders set_merchants]; auto.
    intros po Hin. rewrite fmap_app. apply in_or_app. left. auto.
  - unfold merchants_update in H.
    apply bind_Ok in H as (rows & _ & H). apply bind_Ok in H as ([] & Hk & H).
    apply bind_Ok in H as ([] & Hfk & H). injection H as <-.
    apply merchants_keys_Ok in Hk as (K1 & K2 & K3). apply guard_Ok in Hfk.
    rewrite forallb_forall in Hfk.
    constructor; cbn [db_users db_profiles db_merchants db_print_orders set_merchants]; auto.
    intros po Hin. apply existsb_key_In. auto.
  - unfold print_orders_insert in H.
    apply bind_Ok in H as (r & Hr & H). apply bind_Ok in H as ([] & _ & H).
    apply bind_Ok in H as ([] & _ & H). apply bind_Ok in H as ([] & Hk & H). injection H as <-.
    apply print_orders_keys_iff in Hk as (K1 & K2 & K3).
    constructor; cbn [db_users db_profiles db_merchants db_print_orders set_print_orders]; auto.
    intros po Hin. apply in_app_or in Hin as [Hin | [<- | []]]; [auto|].
    eapply print_orders_not_null_int4; eauto.
  - unfold print_orders_update in H.
    apply bind_Ok in H as (rows & Hrows & H). apply bind_Ok in H as ([] & Hk & H).
    injection H as <-. apply print_orders_keys_iff in Hk as (K1 & K2 & K3).
    constructor; cbn [db_users db_profiles db_merchants db_print_orders set_print_orders]; auto.
    apply for_each_Forall2 in Hrows.
    assert (Forall (fun po => int4 (print_orders.file_size po) = Ok (print_orders.file_size po) /\
                              int4 (print_orders.pages po) = Ok (print_orders.pages po) /\
                              int4_in_range (print_orders.copies po) = true) rows) as Hall.
    { refine (Forall2_Forall_transfer _ _ _ _ Hrows _ _).
      - apply Forall_forall. intros po Hin. apply Hoi. apply list_elem_of_In. exact Hin.
      - intros old new Hon Hold. simpl in Hon. unfold print_orders_update_row in Hon.
        destruct (upd_matches st old && _).
        + apply bind_Ok in Hon as (r & Hr & Hon). apply bind_Ok in Hon as ([] & _ & Hon).
          apply bind_Ok in Hon as ([] & _ & Hon). injection Hon as <-.
          eapply print_orders_not_null_int4; eauto.
        + injection Hon as <-. exact Hold. }
    rewrite Forall_forall in Hall. intros po Hin. apply Hall. apply list_elem_of_In. exact Hin.
  - unfold objects_insert in H. apply bind_Ok in H as ([] & _ & H). injection H as <-.
    constructor; auto.
Qed.

Lemma consistent_of_reachable (db : database) : reachable db -> consistent db.
Proof.
  induction 1 as [|db db' _ IH Hstep].
  - constructor; simpl; first [ apply NoDup_nil_2 | reflexivity | intros ? [] ].
  - eapply step_consistent; eauto.
Qed.

Lemma campus_shop_reachable : reachable Campus.shop_db.
Proof.
  eapply reachable_step.
  - eapply reachable_step.
    + eapply reachable_step; [exact (proj1 campus_reachable)|].
      eapply (step_auth_users_insert _ 20 (Campus.new_user "merchant")).
      vm_compute. reflexivity.
    + eapply (step_auth_users_insert _ 30 (Campus.signup Campus.u2 "b@x.edu" [])).
      vm_compute. reflexivity.
  - eapply (step_merchants_insert _ 40 Campus.shop (Some Campus.m1) false
              (Campus.new_shop Campus.m1 Omitted)).
    vm_compute. reflexivity.
Qed.

Lemma campus_consistent : consistent Campus.shop_db /\ consistent Campus.open_db.
Proof.
  split; apply consistent_of_reachable;
    [exact campus_shop_reachable | exact (proj2 campus_reachable)].
Qed.

(** X5.  Every database that statements can build satisfies the keys of
    the schema: ids are unique per table, no owner has two shops, every
    shop and every order refers to existing rows (cascading deletes
    included), the INTEGER columns are in range, and the profiles are
    exactly those of the users, one each. *)
Theorem reachable_consistent (db : database) : reachable db -> consistent db.
Proof. apply consistent_of_reachable. Qed.

Lemma reachable_consistent_witness : consistent Campus.open_db.
Proof.
  apply (reachable_consistent Campus.open_db). exact (proj2 campus_reachable).
Defined.

(** X6.  A profile cannot open a second shop: an INSERT into [merchants]
    for an owner who already has a row there fails. *)
Theorem second_shop_rejected (now : timestamptz) (gen : uuid) (db : database)
    (uid : option uuid) (returning : bool) (v : merchants.values) (m : merchants.row) :
  In m (db_merchants db) ->
  merchants.v_user_id v = Given (Some (merchants.user_id m)) ->
  exists e, merchants_insert now gen db uid returning v = Err e.
Proof.
  intros Hin Hv.
  destruct (merchants_insert now gen db uid returning v) as [db'|e] eqn:E; [|eauto]. exfalso.
  unfold merchants_insert in E.
  apply bind_Ok in E as (r & Hr & E). apply bind_Ok in E as ([] & _ & E).
  apply bind_Ok in E as ([] & Hk & E).
  apply merchants_keys_Ok in Hk as (_ & K2 & _).
  apply merchants_not_null_Ok in Hr as (_ & Hu & _). cbn in Hu. rewrite Hv in Hu. simpl in Hu.
  injection Hu as Hu. rewrite fmap_app in K2. apply NoDup_app in K2 as (_ & K2 & _).
  apply (K2 (merchants.user_id m)).
  - apply list_elem_of_In. apply in_map. exact Hin.
  - simpl. rewrite <- Hu. apply list_elem_of_singleton. reflexivity.
Qed.

Lemma second_shop_rejected_witness :
  exists e, merchants_insert 70 "f6666666-6666-4666-8666-666666666666" Campus.shop_db
              (Some Campus.m1) false (Campus.new_shop Campus.m1 Omitted) = Err e.
Proof.
  apply (second_shop_rejected 70 "f6666666-6666-4666-8666-666666666666" Campus.shop_db
           (Some Campus.m1) false (Campus.new_shop Campus.m1 Omitted) (Campus.the_shop true)).
  - vm_compute. left. reflexivity.
  - reflexivity.
Defined.

(** ** Updates of print orders *)

Lemma for_each_map {A B} (f : A -> result B) (g : A -> B) (l : list A) :
  (forall a, In a l -> f a = Ok (g a)) -> for_each f l = Ok (g <$> l).
Proof.
  induction l as [|a l IH]; intros H; [reflexivity|].
  simpl. rewrite (H a) by (left; reflexivity). simpl.
  rewrite IH by (intros b Hb; apply H; right; exact Hb). reflexivity.
Qed.

Lemma set_print_orders_same db : set_print_orders db (db_print_orders db) = db.
Proof. destruct db; reflexivity. Qed.

Lemma fmap_same {A} (g : A -> A) (l : list A) : (forall a, In a l -> g a = a) -> g <$> l = l.
Proof.
  induction l as [|a l IH]; intros H; [reflexivity|].
  rewrite fmap_cons, (H a) by (left; reflexivity).
  rewrite IH by (intros b Hb; apply H; right; exact Hb). reflexivity.
Qed.

Lemma print_orders_keys_consistent db :
  consistent db -> print_orders_keys db (db_print_orders db) = Ok tt.
Proof.
  intros [_ _ _ _ _ Ho Hou Hom _]. apply print_orders_keys_iff. auto.
Qed.

(** X7.  An UPDATE of [print_orders] whose WHERE clause matches only
    orders the caller is no party to is not an error: it succeeds and
    leaves the database exactly as it was. *)
Theorem update_without_party_is_noop (now : timestamptz) (db : database) (uid : option uuid)
    (st : update_stmt print_orders.row print_orders.values) :
  consistent db ->
  (forall po, In po (db_print_orders db) -> upd_matches st po = true -> ~ order_party db uid po) ->
  print_orders_update now db uid st = Ok db.
Proof.
  intros Hc Hout. unfold print_orders_update.
  rewrite (for_each_map _ (fun po => po)).
  - rewrite (fmap_same (fun po => po)) by reflexivity. simpl.
    rewrite (print_orders_keys_consistent db Hc). simpl.
    rewrite set_print_orders_same. reflexivity.
  - intros po Hin. unfold print_orders_update_row.
    destruct (upd_matches st po) eqn:Em; [|reflexivity].
    destruct (update_targets print_orders_policies db uid (upd_reads st) po) eqn:Et; [|reflexivity].
    apply print_orders_update_targets in Et. destruct (Hout po Hin Em Et).
Qed.

Lemma update_without_party_is_noop_witness :
  print_orders_update 60 Campus.open_db (Some Campus.u2)
    (MerchantDashboard.status_update Campus.order "printing") = Ok Campus.open_db.
Proof.
  apply (update_without_party_is_noop 60 Campus.open_db (Some Campus.u2)
           (MerchantDashboard.status_update Campus.order "printing")).
  - exact (proj2 campus_consistent).
  - intros po Hin _ (u & Hu & Hparty). injection Hu as <-.
    vm_compute in Hin. destruct Hin as [<- | []].
    destruct Hparty as [Hc | (m & Hm & _ & _ & Ho)].
    + discriminate Hc.
    + vm_compute in Hm. destruct Hm as [<- | []]. discriminate Ho.
Defined.

Lemma order_party_restamp db uid po s now :
  order_party db uid (restamp po s now) <-> order_party db uid po.
Proof. reflexivity. Qed.

Lemma status_update_row now db uid oid s (old : print_orders.row) :
  s ∈ status_values ->
  int4 (print_orders.file_size old) = Ok (print_orders.file_size old) ->
  int4 (print_orders.pages old) = Ok (print_orders.pages old) ->
  int4_in_range (print_orders.copies old) = true ->
  print_orders_update_row now db uid (MerchantDashboard.status_update oid s) old
  = Ok (if bool_decide (print_orders.id old = oid)
           && update_targets print_orders_policies db uid true old
        then restamp old s now else old).
Proof.
  intros Hs H1 H2 H3. unfold print_orders_update_row.
  change (upd_matches (MerchantDashboard.status_update oid s) old)
    with (bool_decide (print_orders.id old = oid)).
  change (upd_reads (MerchantDashboard.status_update oid s)) with true.
  destruct (bool_decide (print_orders.id old = oid)
            && update_targets print_orders_policies db uid true old) eqn:Et; [|reflexivity].
  apply andb_true_iff in Et as [_ Et].
  assert (print_orders_not_null
            (update_print_orders_updated_at now
               (print_orders_assign old (upd_set (MerchantDashboard.status_update oid s))))
          = Ok (restamp old s now)) as ->.
  { unfold print_orders_not_null. cbn. rewrite H1. cbn. rewrite H2. cbn. rewrite H3. reflexivity. }
  cbn [mbind result_bind].
  assert (update_stores print_orders_policies db uid true (restamp old s now) = true) as ->.
  { apply print_orders_update_stores. apply order_party_restamp.
    apply print_orders_update_targets in Et. exact Et. }
  cbn [guard mbind result_bind]. unfold print_orders_check.
  rewrite bool_decide_eq_true_2 by exact Hs. reflexivity.
Qed.

(** X8.  In a database that satisfies its keys, the dashboard's
    [updateStatus] with one of the four statuses always reports
    "Status updated".  It gives the order with that id the new status
    and the current time as [updated_at] when the caller is a party to
    the order, and leaves it alone otherwise; every other order, column
    and table stays as it was. *)
Theorem updateStatus_effect (now : timestamptz) (db : database) (uid : option uuid)
    (orderId : uuid) (status : string) :
  consistent db -> status ∈ status_values ->
  exists db',
    MerchantDashboard.updateStatus now db uid orderId status = (db', "Status updated") /\
    db_users db' = db_users db /\ db_profiles db' = db_profiles db /\
    db_merchants db' = db_merchants db /\ db_objects db' = db_objects db /\
    Forall2 (fun old new =>
               (print_orders.id old = orderId /\ order_party db uid old /\
                new = restamp old status now)
               \/ (~ (print_orders.id old = orderId /\ order_party db uid old) /\ new = old))
            (db_print_orders db) (db_print_orders db').
Proof.
  intros Hc Hs.
  set (g := fun po => if bool_decide (print_orders.id po = orderId)
                         && update_targets print_orders_policies db uid true po
                      then restamp po status now else po).
  assert (print_orders_update now db uid (MerchantDashboard.status_update orderId status)
          = Ok (set_print_orders db (g <$> db_print_orders db))) as E.
  { unfold print_orders_update.
    rewrite (for_each_map _ g).
    - cbn [mbind result_bind].
      assert (print_orders_keys db (g <$> db_print_orders db) = Ok tt) as ->; [|reflexivity].
      destruct Hc as [_ _ _ _ _ Ho Hou Hom _].
      assert (forall po, print_orders.id (g po) = print_orders.id po /\
                         print_orders.user_id (g po) = print_orders.user_id po /\
                         print_orders.merchant_id (g po) = print_orders.merchant_id po) as Hg.
      { intros po. unfold g. destruct (_ && _); auto. }
      apply print_orders_keys_iff. refine (conj _ (conj _ _)).
      + rewrite <- list_fmap_compose.
        rewrite (list_fmap_ext _ print_orders.id (db_print_orders db)); [exact Ho|].
        intros i po _. apply Hg.
      + intros po Hin. apply in_map_iff in Hin as (old & <- & Hold).
        destruct (Hg old) as (_ & -> & _). auto.
      + intros po Hin. apply in_map_iff in Hin as (old & <- & Hold).
        destruct (Hg old) as (_ & _ & ->). auto.
    - intros po Hin. destruct (print_orders_int4 db Hc po Hin) as (H1 & H2 & H3).
      apply status_update_row; auto. }
  exists (set_print_orders db (g <$> db_print_orders db)).
  unfold MerchantDashboard.updateStatus. rewrite E.
  refine (conj eq_refl (conj eq_refl (conj eq_refl (conj eq_refl (conj eq_refl _))))).
  cbn [db_print_orders set_print_orders].
  assert (forall po,
            (print_orders.id po = orderId /\ order_party db uid po /\
             g po = restamp po status now)
            \/ (~ (print_orders.id po = orderId /\ order_party db uid po) /\ g po = po)) as Hg.
  { intros po. unfold g.
    destruct (bool_decide (print_orders.id po = orderId)) eqn:Eid; cbn [andb].
    - apply bool_decide_eq_true in Eid.
      destruct (update_targets print_orders_policies db uid true po) eqn:Et.
      + apply print_orders_update_targets in Et. left. exact (conj Eid (conj Et eq_refl)).
      + right. split; [|reflexivity]. intros [_ Hp].
        apply print_orders_update_targets with (reads := true) in Hp. congruence.
    - apply bool_decide_eq_false in Eid. right. split; [|reflexivity]. intros [Hid _]. auto. }
  apply Forall2_fmap_r. apply Forall_Forall2_diag. apply Forall_forall. intros po _.
  exact (Hg po).
Qed.

Lemma updateStatus_effect_witness :
  exists db',
    MerchantDashboard.updateStatus 60 Campus.open_db (Some Campus.m1) Campus.order "printing"
    = (db', "Status updated") /\
    db_users db' = db_users Campus.open_db /\ db_profiles db' = db_profiles Campus.open_db /\
    db_merchants db' = db_merchants Campus.open_db /\
    db_objects db' = db_objects Campus.open_db /\
    Forall2 (fun old new =>
               (print_orders.id old = Campus.order /\
                order_party Campus.open_db (Some Campus.m1) old /\
                new = restamp old "printing" 60)
               \/ (~ (print_orders.id old = Campus.order /\
                      order_party Campus.open_db (Some Campus.m1) old) /\ new = old))
            (db_print_orders Campus.open_db) (db_print_orders db').
Proof.
  apply (updateStatus_effect 60 Campus.open_db (Some Campus.m1) Campus.order "printing").
  - exact (proj2 campus_consistent).
  - unfold status_values. apply list_elem_of_In. right. left. reflexivity.
Defined.

(** ** LIKE and object names *)

Lemma like_percent_unfold (p s : string) :
  like (String "%" p) s
  = like p s || match s with
                | EmptyString => false
                | String _ s' => like (String "%" p) s'
                end.
Proof. destruct s; reflexivity. Qed.

Lemma like_underscore_unfold (p s : string) :
  like (String "_" p) s = match s with EmptyString => false | String _ s' => like p s' end.
Proof. destruct s; reflexivity. Qed.

Lemma like_literal_unfold (c : ascii) (p s : string) :
  c <> "%"%char -> c <> "_"%char -> c <> "\"%char ->
  like (String c p) s
  = match s with EmptyString => false | String d s' => Ascii.eqb d c && like p s' end.
Proof.
  intros H1 H2 H3. cbn [like].
  apply Ascii.eqb_neq in H1, H2, H3. rewrite H1, H2, H3. destruct s; reflexivity.
Qed.

Lemma append_nil_l (s : string) : EmptyString +:+ s = s.
Proof. reflexivity. Qed.

Lemma append_cons (c : ascii) (a b : string) : String c a +:+ b = String c (a +:+ b).
Proof. reflexivity. Qed.

Lemma like_percent_iff (p s : string) :
  like (String "%" p) s = true <-> exists pre suf, s = pre +:+ suf /\ like p suf = true.
Proof.
  induction s as [|c s IH]; rewrite like_percent_unfold, orb_true_iff.
  - split.
    + intros [H | H]; [|discriminate]. exists EmptyString, EmptyString. auto.
    + intros (pre & suf & E & H). left. destruct pre; [|discriminate].
      rewrite append_nil_l in E. subst. exact H.
  - rewrite IH. split.
    + intros [H | (pre & suf & -> & H)].
      * exists EmptyString, (String c s). auto.
      * exists (String c pre), suf. auto.
    + intros (pre & suf & E & H). destruct pre as [|d pre].
      * rewrite append_nil_l in E. left. subst. exact H.
      * rewrite append_cons in E. injection E as -> ->. right. eauto.
Qed.

Lemma like_plain (p s : string) : plain p -> (like p s = true <-> s = p).
Proof.
  unfold plain. revert s. induction p as [|c p IH]; intros s Hp.
  - destruct s; simpl; split; congruence.
  - simpl in Hp. apply Forall_cons in Hp as [(H1 & H2 & H3) Hp].
    rewrite (like_literal_unfold c p s H1 H2 H3). destruct s as [|d s].
    + split; discriminate.
    + rewrite andb_true_iff, (IH s Hp), Ascii.eqb_eq. split.
      * intros [-> ->]. reflexivity.
      * intros E. injection E as -> ->. auto.
Qed.

Lemma like_self (p : string) : no_backslash p -> like p p = true.
Proof.
  unfold no_backslash. induction p as [|c p IH]; intros Hp; [reflexivity|].
  simpl in Hp. apply Forall_cons in Hp as [Hc Hp]. specialize (IH Hp).
  destruct (Ascii.eqb c "%") eqn:E1.
  - apply Ascii.eqb_eq in E1. subst c.
    rewrite like_percent_unfold. apply orb_true_iff. right.
    rewrite like_percent_unfold, IH. reflexivity.
  - destruct (Ascii.eqb c "_") eqn:E2.
    + apply Ascii.eqb_eq in E2. subst c. rewrite like_underscore_unfold. exact IH.
    + apply Ascii.eqb_neq in E1, E2. rewrite (like_literal_unfold c p _ E1 E2 Hc).
      rewrite Ascii.eqb_refl, IH. reflexivity.
Qed.

(** X9.  [file_url LIKE '%' || name] tests that the URL ends with the
    object name, provided the name holds none of the pattern characters
    [%], [_] and backslash; a name without backslash always matches a
    URL that ends with it. *)
Theorem like_is_suffix_test (name url : string) :
  (plain name -> (like (String "%" name) url = true <-> exists pre, url = pre +:+ name)) /\
  (no_backslash name -> forall pre, like (String "%" name) (pre +:+ name) = true).
Proof.
  split.
  - intros Hp. rewrite like_percent_iff. split.
    + intros (pre & suf & -> & H). apply (like_plain name suf Hp) in H. subst. eauto.
    + intros (pre & ->). exists pre, name. split; [reflexivity|]. apply like_plain; auto.
  - intros Hn pre. apply like_percent_iff. exists pre, name. split; [reflexivity|].
    apply like_self. exact Hn.
Qed.

Lemma campus_name_plain : plain Campus.object_name.
Proof.
  unfold plain. apply Forall_forall. intros c Hc. apply list_elem_of_In in Hc.
  vm_compute in Hc.
  repeat (destruct Hc as [<- | Hc]; [refine (conj _ (conj _ _)); discriminate|]).
  destruct Hc.
Qed.

Lemma like_is_suffix_test_witness :
  (like (String "%" Campus.object_name) Campus.public_url = true
   <-> exists pre, Campus.public_url = pre +:+ Campus.object_name) /\
  forall pre, like (String "%" Campus.object_name) (pre +:+ Campus.object_name) = true.
Proof.
  split.
  - apply (proj1 (like_is_suffix_test Campus.object_name Campus.public_url)).
    exact campus_name_plain.
  - apply (proj2 (like_is_suffix_test Campus.object_name Campus.public_url)).
    unfold no_backslash. eapply Forall_impl; [exact campus_name_plain|].
    intros c (_ & _ & H). exact H.
Defined.

Lemma split_slash_nonempty (s : string) : split_slash s <> [].
Proof.
  induction s as [|c s IH]; simpl; [discriminate|].
  destruct (Ascii.eqb c "/"); [discriminate|].
  destruct (split_slash s); [contradiction | discriminate].
Qed.

Lemma split_slash_prefix (k rest : string) :
  no_slash k -> split_slash (k +:+ String "/" rest) = k :: split_slash rest.
Proof.
  unfold no_slash. induction k as [|c k IH]; intros Hk.
  - reflexivity.
  - simpl in Hk. apply Forall_cons in Hk as [Hc Hk].
    rewrite append_cons. cbn [split_slash].
    apply Ascii.eqb_neq in Hc. rewrite Hc, (IH Hk). reflexivity.
Qed.

Lemma split_slash_no_slash (s : string) : no_slash s -> split_slash s = [s].
Proof.
  unfold no_slash. induction s as [|c s IH]; intros Hs; [reflexivity|].
  simpl in Hs. apply Forall_cons in Hs as [Hc Hs].
  cbn [split_slash]. apply Ascii.eqb_neq in Hc. rewrite Hc, (IH Hs). reflexivity.
Qed.

Lemma storage_first_folder (k rest : string) :
  no_slash k -> first_folder storage_foldername (k +:+ String "/" rest) = Some k.
Proof.
  intros Hk. unfold first_folder, storage_foldername.
  rewrite (split_slash_prefix k rest Hk).
  destruct (k +:+ String "/" rest) eqn:E.
  - destruct k; discriminate E.
  - pose proof (split_slash_nonempty rest) as Hne.
    destruct (split_slash rest); [contradiction | reflexivity].
Qed.

Lemma storage_no_folder (name : string) :
  no_slash name -> first_folder storage_foldername name = None.
Proof.
  intros Hn. unfold first_folder, storage_foldername.
  destruct name; [reflexivity|]. rewrite (split_slash_no_slash _ Hn). reflexivity.
Qed.

Lemma objects_insert_eq foldername db uid returning o :
  objects_insert foldername db uid returning o
  = if Sql.holds (in_own_folder foldername db uid o)
    then Ok (set_objects db (db_objects db ++ [o]))
    else Err (row_security_violation "objects").
Proof.
  unfold objects_insert, insert_allowed.
  rewrite objects_insert_check, objects_select_check.
  destruct (Sql.holds (in_own_folder foldername db uid o)), returning; reflexivity.
Qed.

(** X10.  With the storage service's [foldername] (the name split at
    ['/'], last component dropped), an object whose name has no ['/']
    cannot be uploaded to [print-files] by anyone, and an object named
    [k/rest], where [k] has no ['/'], can be uploaded by the user with
    key [k] and by nobody else. *)
Theorem upload_by_folder_owner (db : database) (returning : bool) :
  (forall uid name, no_slash name ->
     objects_insert storage_foldername db uid returning
       {| storage_objects.bucket_id := "print-files"; storage_objects.name := name |}
     = Err (row_security_violation "objects")) /\
  (forall u k rest, no_slash k ->
     let o := {| storage_objects.bucket_id := "print-files";
                 storage_objects.name := k +:+ String "/" rest |} in
     (u = k -> objects_insert storage_foldername db (Some u) returning o
               = Ok (set_objects db (db_objects db ++ [o]))) /\
     (u <> k -> objects_insert storage_foldername db (Some u) returning o
                = Err (row_security_violation "objects"))).
Proof.
  split.
  - intros uid name Hn. rewrite objects_insert_eq.
    destruct (Sql.holds _) eqn:E; [|reflexivity].
    apply in_own_folder_holds in E as (_ & u & _ & Hf). simpl in Hf.
    rewrite (storage_no_folder name Hn) in Hf. discriminate.
  - intros u k rest Hk o. split.
    + intros ->. rewrite objects_insert_eq.
      assert (Sql.holds (in_own_folder storage_foldername db (Some k) o) = true) as ->;
        [|reflexivity].
      apply in_own_folder_holds. split; [reflexivity|]. exists k. split; [reflexivity|].
      apply storage_first_folder. exact Hk.
    + intros Hne. rewrite objects_insert_eq.
      destruct (Sql.holds _) eqn:E; [|reflexivity].
      apply in_own_folder_holds in E as (_ & u' & Hu & Hf). simpl in Hf.
      rewrite (storage_first_folder k rest Hk) in Hf. congruence.
Qed.

Lemma uuid_no_slash :
  no_slash Campus.u1.
Proof.
  unfold no_slash. apply Forall_forall. intros c Hc. apply list_elem_of_In in Hc.
  vm_compute in Hc. repeat (destruct Hc as [<- | Hc]; [discriminate|]). destruct Hc.
Qed.

Lemma upload_by_folder_owner_witness :
  objects_insert storage_foldername Campus.shop_db (Some Campus.u1) false
    {| storage_objects.bucket_id := "print-files"; storage_objects.name := "doc.pdf" |}
  = Err (row_security_violation "objects") /\
  objects_insert storage_foldername Campus.shop_db (Some Campus.u1) false
    {| storage_objects.bucket_id := "print-files";
       storage_objects.name := Campus.u1 +:+ String "/" "doc.pdf" |}
  = Ok (set_objects Campus.shop_db
          (db_objects Campus.shop_db
           ++ [{| storage_objects.bucket_id := "print-files";
                  storage_objects.name := Campus.u1 +:+ String "/" "doc.pdf" |}])) /\
  objects_insert storage_foldername Campus.shop_db (Some Campus.u2) false
    {| storage_objects.bucket_id := "print-files";
       storage_objects.name := Campus.u1 +:+ String "/" "doc.pdf" |}
  = Err (row_security_violation "objects").
Proof.
  refine (conj _ (conj _ _)).
  - apply (proj1 (upload_by_folder_owner Campus.shop_db false) (Some Campus.u1) "doc.pdf").
    unfold no_slash. vm_compute. repeat (constructor; [discriminate|]). constructor.
  - apply (proj2 (upload_by_folder_owner Campus.shop_db false) Campus.u1 Campus.u1 "doc.pdf"
             uuid_no_slash).
    reflexivity.
  - apply (proj2 (upload_by_folder_owner Campus.shop_db false) Campus.u2 Campus.u1 "doc.pdf"
             uuid_no_slash).
    discriminate.
Defined.

(** ** Files of orders *)

Lemma shop_file_readable foldername db (po : print_orders.row) (m : merchants.row)
    (o : storage_objects.row) (pre : string) :
  In po (db_print_orders db) -> In m (db_merchants db) ->
  merchants.is_active m = true ->
  print_orders.merchant_id po = merchants.id m ->
  storage_objects.bucket_id o = "print-files" ->
  print_orders.file_url po = pre +:+ storage_objects.name o ->
  no_backslash (storage_objects.name o) ->
  select_allowed (objects_policies foldername) db (Some (merchants.user_id m)) o = true.
Proof.
  intros Hpo Hm Ha Hid Hb Hurl Hn. unfold select_allowed.
  rewrite objects_select_qual. apply orb_true_iff. right.
  apply in_order_of_own_shop_holds. split; [exact Hb|].
  exists (merchants.user_id m), po, m.
  refine (conj eq_refl (conj Hpo (conj Hm (conj Ha (conj Hid (conj eq_refl _)))))).
  rewrite Hurl. apply like_percent_iff. exists pre, (storage_objects.name o).
  split; [reflexivity | apply like_self; exact Hn].
Qed.

(** X11.  The owner of an active shop can read every object of
    [print-files] whose name, free of backslashes, ends the [file_url]
    of an order addressed to the shop. *)
Theorem shop_owner_reads_order_file (foldername : string -> list string) (db : database)
    (po : print_orders.row) (m : merchants.row) (o : storage_objects.row) (pre : string) :
  In po (db_print_orders db) -> In m (db_merchants db) ->
  merchants.is_active m = true ->
  print_orders.merchant_id po = merchants.id m ->
  storage_objects.bucket_id o = "print-files" ->
  print_orders.file_url po = pre +:+ storage_objects.name o ->
  no_backslash (storage_objects.name o) ->
  select_allowed (objects_policies foldername) db (Some (merchants.user_id m)) o = true.
Proof. apply shop_file_readable. Qed.

Lemma campus_name_no_backslash : no_backslash Campus.object_name.
Proof.
  unfold no_backslash. eapply Forall_impl; [exact campus_name_plain|].
  intros c (_ & _ & H). exact H.
Qed.

Lemma shop_owner_reads_order_file_witness :
  select_allowed (objects_policies storage_foldername) Campus.open_db (Some Campus.m1)
    Campus.uploaded = true.
Proof.
  apply (shop_owner_reads_order_file storage_foldername Campus.open_db Campus.placed_order
           (Campus.the_shop true) Campus.uploaded
           "https://project.supabase.co/storage/v1/object/public/print-files/").
  - vm_compute. left. reflexivity.
  - vm_compute. left. reflexivity.
  - reflexivity.
  - reflexivity.
  - reflexivity.
  - reflexivity.
  - exact campus_name_no_backslash.
Defined.

(** ** The order form *)

Lemma print_orders_insert_check db uid po :
  with_check_option print_orders_policies INSERT false db uid po = true
  <-> uid = Some (print_orders.user_id po).
Proof. unfold with_check_option; simpl. rewrite orb_false_r. apply holds_eq_uid. Qed.

Lemma print_orders_not_null_refs (t : print_orders.tuple) (r : print_orders.row) :
  print_orders_not_null t = Ok r ->
  print_orders.t_id t = Some (print_orders.id r) /\
  print_orders.t_merchant_id t = Some (print_orders.merchant_id r) /\
  int4 (print_orders.t_file_size t) = Ok (print_orders.file_size r).
Proof.
  unfold print_orders_not_null. intros H.
  apply bind_Ok in H as (id & Hid & H). apply bind_Ok in H as (user_id & _ & H).
  apply bind_Ok in H as (merchant_id & Hm & H). apply bind_Ok in H as (file_name & _ & H).
  apply bind_Ok in H as (file_url & _ & H). apply bind_Ok in H as (file_size & Hsize & H).
  apply bind_Ok in H as (pages & _ & H). apply bind_Ok in H as (copies_opt & _ & H).
  apply bind_Ok in H as (copies & _ & H). apply bind_Ok in H as (status & _ & H).
  apply bind_Ok in H as (created_at & _ & H). apply bind_Ok in H as (updated_at & _ & H).
  injection H as <-. cbn. apply not_null_Ok in Hid, Hm. auto.
Qed.

Lemma print_orders_insert_Ok_keys now gen db uid returning v db' :
  print_orders_insert now gen db uid returning v = Ok db' ->
  exists r, print_orders_not_null (print_orders_defaults now gen v) = Ok r /\
            insert_allowed print_orders_policies db uid returning r = true /\
            print_orders_keys db (db_print_orders db ++ [r]) = Ok tt /\
            db' = set_print_orders db (db_print_orders db ++ [r]).
Proof.
  unfold print_orders_insert. intros H.
  apply bind_Ok in H as (r & Hr & H). apply bind_Ok in H as ([] & Hrls & H).
  apply bind_Ok in H as ([] & _ & H). apply bind_Ok in H as ([] & Hk & H).
  injection H as <-. apply guard_Ok in Hrls. exists r. auto.
Qed.

Lemma order_values_row now gen uid sm f url copies notes :
  int4_in_range (UserDashboard.size f) = true -> int4_in_range copies = true ->
  print_orders_not_null
    (print_orders_defaults now gen (UserDashboard.order_values uid sm f url copies notes))
  = Ok (submitted_order now gen uid sm f url copies notes).
Proof.
  intros Hs Hc. unfold print_orders_not_null, print_orders_defaults, UserDashboard.order_values.
  cbn [print_orders.t_id print_orders.t_user_id print_orders.t_merchant_id
       print_orders.t_file_name print_orders.t_file_url print_orders.t_file_size
       print_orders.t_pages print_orders.t_copies print_orders.t_notes print_orders.t_status
       print_orders.t_created_at print_orders.t_updated_at
       print_orders.v_id print_orders.v_user_id print_orders.v_merchant_id
       print_orders.v_file_name print_orders.v_file_url print_orders.v_file_size
       print_orders.v_pages print_orders.v_copies print_orders.v_notes print_orders.v_status
       print_orders.v_created_at print_orders.v_updated_at
       or_default not_null mbind result_bind int4].
  rewrite Hs, Hc. reflexivity.
Qed.

Section SubmitFacts.
Variable foldername : string -> list string.
Variable returning : bool.
Variable getPublicUrl : string -> string.

Lemma size_in_int4 (z : Z) : 0 <= z <= 52428800 -> int4_in_range z = true.
Proof.
  intros [H1 H2]. unfold int4_in_range. apply andb_true_iff. split; apply Z.leb_le; lia.
Qed.

Lemma handleSubmit_upload (db : database) (uid : uuid) (date_now : N) (f : UserDashboard.File) :
  first_folder foldername (UserDashboard.fileName uid date_now f) = Some uid ->
  UserDashboard.size f <= 52428800 ->
  UserDashboard.upload foldername returning db (Some uid)
    (UserDashboard.fileName uid date_now f) f
  = Some (set_objects db (db_objects db ++ [submitted_object uid date_now f])).
Proof.
  intros Hf Hs. unfold UserDashboard.upload.
  cbn [storage_buckets.file_size_limit print_files].
  rewrite (proj2 (Z.ltb_ge 52428800 (UserDashboard.size f)) Hs).
  change {| storage_objects.bucket_id := "print-files";
            storage_objects.name := UserDashboard.fileName uid date_now f |}
    with (submitted_object uid date_now f).
  rewrite objects_insert_eq.
  assert (Sql.holds (in_own_folder foldername db (Some uid) (submitted_object uid date_now f))
          = true) as ->; [|reflexivity].
  apply in_own_folder_holds. split; [reflexivity|]. exists uid. auto.
Qed.

Lemma handleSubmit_Ok (now : timestamptz) (gen : uuid) (date_now : N) (db : database)
    (uid : uuid) (f : UserDashboard.File) (sm : string) (copies : Z) (notes : string) :
  consistent db ->
  first_folder foldername (UserDashboard.fileName uid date_now f) = Some uid ->
  sm <> "" ->
  In uid (profiles.id <$> db_profiles db) ->
  In sm (merchants.id <$> db_merchants db) ->
  ~ In gen (print_orders.id <$> db_print_orders db) ->
  0 <= UserDashboard.size f <= 52428800 -> int4_in_range copies = true ->
  UserDashboard.handleSubmit foldername returning getPublicUrl now gen date_now db
    (Some uid) (Some f) sm copies notes
  = (set_print_orders
       (set_objects db (db_objects db ++ [submitted_object uid date_now f]))
       (db_print_orders db
        ++ [submitted_order now gen uid sm f
              (getPublicUrl (UserDashboard.fileName uid date_now f)) copies notes]),
     "Order submitted!").
Proof.
  intros Hc Hf Hsm Hu Hm Hgen Hs Hcopies. unfold UserDashboard.handleSubmit.
  apply String.eqb_neq in Hsm. rewrite Hsm. cbv zeta.
  rewrite (handleSubmit_upload db uid date_now f Hf (proj2 Hs)).
  unfold print_orders_insert.
  rewrite (order_values_row _ _ _ _ _ _ _ _ (size_in_int4 _ Hs) Hcopies).
  cbn [mbind result_bind].
  assert (insert_allowed print_orders_policies
            (set_objects db (db_objects db ++ [submitted_object uid date_now f])) (Some uid) false
            (submitted_order now gen uid sm f
               (getPublicUrl (UserDashboard.fileName uid date_now f)) copies notes) = true) as ->.
  { unfold insert_allowed. rewrite andb_true_r. apply print_orders_insert_check. reflexivity. }
  cbn [guard mbind result_bind]. unfold print_orders_check.
  rewrite bool_decide_eq_true_2
    by (apply list_elem_of_In; left; reflexivity).
  cbn [guard mbind result_bind]. cbv zeta. cbn [db_print_orders set_objects].
  assert (print_orders_keys
            (set_objects db (db_objects db ++ [submitted_object uid date_now f]))
            (db_print_orders db
             ++ [submitted_order now gen uid sm f
                   (getPublicUrl (UserDashboard.fileName uid date_now f)) copies notes])
          = Ok tt) as ->; [|reflexivity].
  destruct Hc as [_ _ _ _ _ Ho Hou Hom _].
  apply print_orders_keys_iff. cbn [db_profiles db_merchants set_objects].
  refine (conj _ (conj _ _)).
  - rewrite fmap_app. apply NoDup_snoc; assumption.
  - intros po Hin. apply in_app_or in Hin as [Hin | [<- | []]]; auto.
  - intros po Hin. apply in_app_or in Hin as [Hin | [<- | []]]; auto.
Qed.


(** X13.  The upload and the order are not one transaction: when the
    upload is accepted but the INSERT of the order is not (the chosen
    shop no longer exists, the user has no profile, or the copies exceed
    INTEGER), the form reports "Submission failed" and the uploaded file
    stays in the bucket, with no order naming it. *)
Theorem failed_order_leaves_file (now : timestamptz) (gen : uuid) (date_now : N)
    (db : database) (uid : uuid) (f : UserDashboard.File) (sm : string) (copies : Z)
    (notes : string) :
  first_folder foldername (UserDashboard.fileName uid date_now f) = Some uid ->
  UserDashboard.size f <= 52428800 ->
  sm <> "" ->
  ~ In sm (merchants.id <$> db_merchants db) \/ ~ In uid (profiles.id <$> db_profiles db)
  \/ int4_in_range copies = false ->
  UserDashboard.handleSubmit foldername returning getPublicUrl now gen date_now db
    (Some uid) (Some f) sm copies notes
  = (set_objects db (db_objects db ++ [submitted_object uid date_now f]),
     "Submission failed") /\
  db_print_orders (set_objects db (db_objects db ++ [submitted_object uid date_now f]))
  = db_print_orders db.
Proof.
  intros Hf Hsize Hsm Hbad. split; [|reflexivity]. unfold UserDashboard.handleSubmit.
  apply String.eqb_neq in Hsm. rewrite Hsm. cbv zeta.
  rewrite (handleSubmit_upload db uid date_now f Hf Hsize).
  destruct (print_orders_insert _ _ _ _ _ _) as [db2|e] eqn:E; [|reflexivity]. exfalso.
  apply print_orders_insert_Ok_keys in E as (r & Hr & _ & Hk & _).
  apply print_orders_keys_iff in Hk as (_ & K2 & K3).
  assert (In r (db_print_orders
                  (set_objects db (db_objects db ++ [submitted_object uid date_now f]))
                ++ [r])) as Hin by (apply in_or_app; right; left; reflexivity).
  specialize (K2 r Hin). specialize (K3 r Hin). cbn [db_profiles db_merchants set_objects] in K2, K3.
  pose proof (print_orders_not_null_Ok _ _ Hr) as (Hu & Hc & _).
  pose proof (print_orders_not_null_refs _ _ Hr) as (_ & Hm & _).
  pose proof (print_orders_not_null_int4 _ _ Hr) as (_ & _ & Hrange).
  cbn in Hu, Hc, Hm. injection Hu as Hu. injection Hc as Hc. injection Hm as Hm.
  destruct Hbad as [H | [H | H]].
  - apply H. rewrite Hm. exact K3.
  - apply H. rewrite Hu. exact K2.
  - rewrite <- Hc in Hrange. congruence.
Qed.

(** X14.  Once a submission has stored an order with an active shop, the
    shop's owner finds the order among the readable orders and can read
    the uploaded file, as long as the public URL ends with the object
    name and the name has no backslash; the customer can read both as
    well. *)
Theorem submitted_order_reaches_shop (now : timestamptz) (gen : uuid) (date_now : N)
    (db : database) (uid : uuid) (f : UserDashboard.File) (m : merchants.row) (copies : Z)
    (notes : string) (pre : string) :
  consistent db ->
  first_folder foldername (UserDashboard.fileName uid date_now f) = Some uid ->
  merchants.id m <> "" ->
  In uid (profiles.id <$> db_profiles db) ->
  In m (db_merchants db) -> merchants.is_active m = true ->
  ~ In gen (print_orders.id <$> db_print_orders db) ->
  0 <= UserDashboard.size f <= 52428800 -> int4_in_range copies = true ->
  getPublicUrl (UserDashboard.fileName uid date_now f)
  = pre +:+ UserDashboard.fileName uid date_now f ->
  no_backslash (UserDashboard.fileName uid date_now f) ->
  let db' := fst (UserDashboard.handleSubmit foldername returning getPublicUrl now gen date_now db
                    (Some uid) (Some f) (merchants.id m) copies notes) in
  let po := submitted_order now gen uid (merchants.id m) f
              (getPublicUrl (UserDashboard.fileName uid date_now f)) copies notes in
  let o := submitted_object uid date_now f in
  In po (print_orders_select db' (Some (merchants.user_id m)) (fun _ => true)) /\
  In o (objects_select foldername db' (Some (merchants.user_id m))) /\
  In po (print_orders_select db' (Some uid) (fun _ => true)) /\
  In o (objects_select foldername db' (Some uid)).
Proof.
  intros Hc Hf Hsm Hu Hm Ha Hgen Hs Hcopies Hurl Hn db' po o.
  assert (In (merchants.id m) (merchants.id <$> db_merchants db)) as Hmid
    by (apply in_map; exact Hm).
  unfold db'. rewrite (handleSubmit_Ok now gen date_now db uid f (merchants.id m) copies notes
                         Hc Hf Hsm Hu Hmid Hgen Hs Hcopies).
  cbn [fst]. fold po. fold o.
  set (db2 := set_print_orders (set_objects db (db_objects db ++ [o])) (db_print_orders db ++ [po])).
  assert (In po (db_print_orders db2)) as Hpo by (apply in_or_app; right; left; reflexivity).
  assert (In o (db_objects db2)) as Ho by (apply in_or_app; right; left; reflexivity).
  refine (conj _ (conj _ (conj _ _))).
  - unfold print_orders_select, visible_print_orders. apply filter_In. split; [|reflexivity].
    apply filter_In. split; [exact Hpo|]. apply print_orders_select_qual.
    exists (merchants.user_id m). split; [reflexivity|]. right. exists m. auto.
  - unfold objects_select. apply filter_In. split; [exact Ho|].
    apply (shop_file_readable foldername db2 po m o pre); auto.
  - unfold print_orders_select, visible_print_orders. apply filter_In. split; [|reflexivity].
    apply filter_In. split; [exact Hpo|]. apply print_orders_select_qual.
    exists uid. split; [reflexivity|]. left. reflexivity.
  - unfold objects_select. apply filter_In. split; [exact Ho|].
    unfold select_allowed. rewrite objects_select_qual. apply orb_true_iff. left.
    apply in_own_folder_holds. split; [reflexivity|]. exists uid. auto.
Qed.

End SubmitFacts.

Lemma campus_file_name :
  UserDashboard.fileName Campus.u1 1700000000000 Cases.pdf = Campus.object_name.
Proof. vm_compute. reflexivity. Qed.


Lemma failed_order_leaves_file_witness :
  UserDashboard.handleSubmit storage_foldername false Cases.getPublicUrl 50 Campus.order
    1700000000000 Campus.shop_db (Some Campus.u1) (Some Cases.pdf) Campus.shop 3000000000 ""
  = (set_objects Campus.shop_db
       (db_objects Campus.shop_db ++ [submitted_object Campus.u1 1700000000000 Cases.pdf]),
     "Submission failed") /\
  db_print_orders
    (set_objects Campus.shop_db
       (db_objects Campus.shop_db ++ [submitted_object Campus.u1 1700000000000 Cases.pdf]))
  = db_print_orders Campus.shop_db.
Proof.
  apply (failed_order_leaves_file storage_foldername false Cases.getPublicUrl 50 Campus.order
           1700000000000 Campus.shop_db Campus.u1 Cases.pdf Campus.shop 3000000000 "").
  - vm_compute. reflexivity.
  - vm_compute. discriminate.
  - discriminate.
  - right. right. reflexivity.
Defined.

Lemma submitted_order_reaches_shop_witness :
  let db' := fst (UserDashboard.handleSubmit storage_foldername false Cases.getPublicUrl 50
                    Campus.order 1700000000000 Campus.shop_db (Some Campus.u1) (Some Cases.pdf)
                    (merchants.id (Campus.the_shop true)) 2 "") in
  let po := submitted_order 50 Campus.order Campus.u1 (merchants.id (Campus.the_shop true))
              Cases.pdf
              (Cases.getPublicUrl (UserDashboard.fileName Campus.u1 1700000000000 Cases.pdf))
              2 "" in
  let o := submitted_object Campus.u1 1700000000000 Cases.pdf in
  In po (print_orders_select db' (Some (merchants.user_id (Campus.the_shop true))) (fun _ => true)) /\
  In o (objects_select storage_foldername db' (Some (merchants.user_id (Campus.the_shop true)))) /\
  In po (print_orders_select db' (Some Campus.u1) (fun _ => true)) /\
  In o (objects_select storage_foldername db' (Some Campus.u1)).
Proof.
  apply (submitted_order_reaches_shop storage_foldername false Cases.getPublicUrl 50 Campus.order
           1700000000000 Campus.shop_db Campus.u1 Cases.pdf (Campus.the_shop true) 2 ""
           "https://project.supabase.co/storage/v1/object/public/print-files/").
  - exact (proj1 campus_consistent).
  - vm_compute. reflexivity.
  - discriminate.
  - vm_compute. left. reflexivity.
  - vm_compute. left. reflexivity.
  - reflexivity.
  - vm_compute. intros [].
  - vm_compute. split; discriminate.
  - reflexivity.
  - vm_compute. reflexivity.
  - rewrite campus_file_name. exact campus_name_no_backslash.
Defined.

(** ** The dashboards *)

Lemma insert_desc_perm {R} (at_ : R -> timestamptz) (x : R) (l : list R) :
  Permutation (insert_desc at_ x l) (x :: l).
Proof.
  induction l as [|y l IH]; simpl; [reflexivity|].
  destruct (at_ y <=? at_ x)%Z; [reflexivity|].
  rewrite IH. apply perm_swap.
Qed.

Lemma order_desc_perm {R} (at_ : R -> timestamptz) (l : list R) :
  Permutation (order_desc at_ l) l.
Proof.
  induction l as [|x l IH]; simpl; [reflexivity|].
  unfold order_desc in *. simpl. rewrite insert_desc_perm, IH. reflexivity.
Qed.

Lemma order_desc_In {R} (at_ : R -> timestamptz) (l : list R) (x : R) :
  In x (order_desc at_ l) <-> In x l.
Proof.
  split; apply Permutation_in; [|symmetry]; apply order_desc_perm.
Qed.

Lemma NoDup_key_inj {A} (key : A -> uuid) (l : list A) (a b : A) :
  NoDup (key <$> l) -> In a l -> In b l -> key a = key b -> a = b.
Proof.
  induction l as [|x l IH]; intros Hnd Ha Hb E; [destruct Ha|].
  rewrite fmap_cons in Hnd. apply NoDup_cons in Hnd as [Hx Hnd].
  destruct Ha as [-> | Ha], Hb as [-> | Hb]; auto.
  - exfalso. apply Hx. apply list_elem_of_In. rewrite E. apply in_map. exact Hb.
  - exfalso. apply Hx. apply list_elem_of_In. rewrite <- E. apply in_map. exact Ha.
Qed.

Lemma embed_Some {R} (key : R -> uuid) (l : list R) (k : uuid) (r : R) :
  embed key l k = Some r -> In r l /\ key r = k.
Proof.
  unfold embed. intros H. apply find_some in H as [Hin Hk].
  apply bool_decide_eq_true in Hk. auto.
Qed.

Lemma embed_In {R} (key : R -> uuid) (l : list R) (r : R) :
  NoDup (key <$> l) -> In r l -> embed key l (key r) = Some r.
Proof.
  intros Hnd Hin. unfold embed.
  destruct (List.find _ l) as [r'|] eqn:E.
  - apply find_some in E as [Hin' Hk]. apply bool_decide_eq_true in Hk.
    f_equal. eapply NoDup_key_inj; eauto.
  - exfalso. apply (find_none _ _ E) in Hin.
    rewrite bool_decide_eq_true_2 in Hin by reflexivity. discriminate.
Qed.

Lemma partition_by_status (orders : list MerchantDashboard.OrderWithUser) :
  Forall (fun o => print_orders.status (MerchantDashboard.order o) ∈ status_values) orders ->
  Permutation (MerchantDashboard.pendingOrders orders ++ MerchantDashboard.printingOrders orders
               ++ MerchantDashboard.completedOrders orders) orders.
Proof.
  induction 1 as [|o l Ho _ IH]; [reflexivity|].
  unfold MerchantDashboard.pendingOrders, MerchantDashboard.printingOrders,
    MerchantDashboard.completedOrders in *.
  cbn [List.filter]. unfold status_values in Ho.
  apply elem_of_cons in Ho as [-> | Ho]; [|apply elem_of_cons in Ho as [-> | Ho];
    [|apply elem_of_cons in Ho as [-> | Ho]; [|apply elem_of_cons in Ho as [-> | Ho];
      [|inversion Ho]]]]; simpl.
  - apply perm_skip. exact IH.
  - rewrite <- Permutation_middle. apply perm_skip. exact IH.
  - rewrite app_assoc, <- Permutation_middle, <- app_assoc. apply perm_skip. exact IH.
  - rewrite app_assoc, <- Permutation_middle, <- app_assoc. apply perm_skip. exact IH.
Qed.

(** X15.  Whatever the shop's dashboard fetches from a database that
    statements have built, its three lists (pending, printing, and
    completed or cancelled) share the fetched orders among them: each
    order is in exactly one list, so the three counts add up and no
    order is left out of view; and every button of an order card leads
    to a status the store accepts. *)
Theorem dashboard_lists_partition (db : database) (uid : option uuid) (shop : merchants.row) :
  reachable db ->
  let orders := MerchantDashboard.fetchOrders db uid shop in
  Permutation (MerchantDashboard.pendingOrders orders ++ MerchantDashboard.printingOrders orders
               ++ MerchantDashboard.completedOrders orders) orders /\
  (length (MerchantDashboard.pendingOrders orders)
   + length (MerchantDashboard.printingOrders orders)
   + length (MerchantDashboard.completedOrders orders) = length orders)%nat /\
  forall o s, In o orders -> In s (MerchantDashboard.actions o) -> s ∈ status_values.
Proof.
  intros Hr orders.
  assert (Permutation (MerchantDashboard.pendingOrders orders
                       ++ MerchantDashboard.printingOrders orders
                       ++ MerchantDashboard.completedOrders orders) orders) as Hp.
  { apply partition_by_status. apply Forall_forall. intros o Ho.
    apply list_elem_of_In in Ho. unfold orders, MerchantDashboard.fetchOrders in Ho.
    apply order_desc_In in Ho. apply in_map_iff in Ho as (po & <- & Hpo). simpl.
    unfold print_orders_select, visible_print_orders in Hpo.
    apply filter_In in Hpo as [Hpo _]. apply filter_In in Hpo as [Hpo _].
    pose proof (reachable_status_valid db Hr) as Hv. unfold status_valid in Hv.
    rewrite Forall_forall in Hv. apply Hv. apply list_elem_of_In. exact Hpo. }
  refine (conj Hp (conj _ _)).
  - apply Permutation_length in Hp. rewrite !length_app in Hp. lia.
  - intros o s _ Hs. unfold MerchantDashboard.actions in Hs. unfold status_values.
    apply list_elem_of_In.
    destruct (String.eqb (print_orders.status (MerchantDashboard.order o)) "pending");
      destruct (String.eqb (print_orders.status (MerchantDashboard.order o)) "printing");
      simpl in Hs; intuition (subst; simpl; auto).
Qed.

Lemma dashboard_lists_partition_witness :
  let orders := MerchantDashboard.fetchOrders Campus.open_db (Some Campus.m1)
                  (Campus.the_shop true) in
  Permutation (MerchantDashboard.pendingOrders orders ++ MerchantDashboard.printingOrders orders
               ++ MerchantDashboard.completedOrders orders) orders /\
  (length (MerchantDashboard.pendingOrders orders)
   + length (MerchantDashboard.printingOrders orders)
   + length (MerchantDashboard.completedOrders orders) = length orders)%nat /\
  forall o s, In o orders -> In s (MerchantDashboard.actions o) -> s ∈ status_values.
Proof.
  apply (dashboard_lists_partition Campus.open_db (Some Campus.m1) (Campus.the_shop true)).
  exact (proj2 campus_reachable).
Defined.

(** X16.  The customer's list of shops is the same for every visitor,
    signed in or not: exactly the active merchants, in table order; the
    filter the client adds removes nothing that row-level security lets
    through. *)
Theorem fetchMerchants_active_shops (db : database) (uid : option uuid) :
  UserDashboard.fetchMerchants db uid = List.filter merchants.is_active (db_merchants db) /\
  UserDashboard.fetchMerchants db uid = merchants_select db uid (fun _ => true).
Proof.
  unfold UserDashboard.fetchMerchants, merchants_select, visible_merchants.
  induction (db_merchants db) as [|m l [IH1 IH2]]; [split; reflexivity|].
  cbn [List.filter]. rewrite merchants_select_is_active.
  destruct (merchants.is_active m) eqn:E; cbn [List.filter].
  - rewrite bool_decide_eq_true_2 by exact E. rewrite IH1, <- IH2, IH1. split; reflexivity.
  - rewrite IH1, <- IH2, IH1. split; reflexivity.
Qed.

(** X17.  The shop's dashboard never learns who sent an order: the
    profile embedded in a fetched order is hidden by the policies of
    [profiles] unless the order is the caller's own, and the card then
    reads "Unknown". *)
Theorem merchant_sees_unknown_sender (db : database) (uid : option uuid) (shop : merchants.row)
    (o : MerchantDashboard.OrderWithUser) :
  In o (MerchantDashboard.fetchOrders db uid shop) ->
  uid <> Some (print_orders.user_id (MerchantDashboard.order o)) ->
  MerchantDashboard.profile o = None /\ MerchantDashboard.from_label o = Some "Unknown".
Proof.
  intros Hin Hne. unfold MerchantDashboard.fetchOrders in Hin.
  apply order_desc_In in Hin. apply in_map_iff in Hin as (po & <- & _).
  cbn [MerchantDashboard.order MerchantDashboard.profile] in *.
  assert (embed profiles.id (visible_profiles db uid) (print_orders.user_id po) = None) as E.
  { destruct (embed _ _ _) as [p|] eqn:E; [|reflexivity]. exfalso.
    apply embed_Some in E as [Hp Hid]. unfold visible_profiles in Hp.
    apply filter_In in Hp as [_ Hp]. unfold select_allowed in Hp.
    destruct (profiles_quals db uid p) as (Hs & _). rewrite Hs in Hp.
    apply holds_eq_uid in Hp. congruence. }
  split; [exact E|]. unfold MerchantDashboard.from_label.
  cbn [MerchantDashboard.profile]. rewrite E. reflexivity.
Qed.

Lemma merchant_sees_unknown_sender_witness :
  MerchantDashboard.profile
    {| MerchantDashboard.order := Campus.placed_order; MerchantDashboard.profile := None |} = None /\
  MerchantDashboard.from_label
    {| MerchantDashboard.order := Campus.placed_order; MerchantDashboard.profile := None |}
  = Some "Unknown".
Proof.
  apply (merchant_sees_unknown_sender Campus.open_db (Some Campus.m1) (Campus.the_shop true)
           {| MerchantDashboard.order := Campus.placed_order;
              MerchantDashboard.profile := None |}).
  - vm_compute. left. reflexivity.
  - discriminate.
Defined.

(** X18.  In the customer's list of orders, an order shows its shop
    exactly while the shop is active: the embedded merchant is the shop
    the order names when that shop is active, and null when it is not. *)
Theorem customer_sees_active_shop_only (db : database) (uid : option uuid)
    (o : UserDashboard.PrintOrder) :
  consistent db ->
  In o (UserDashboard.fetchOrders db uid) ->
  exists m, In m (db_merchants db) /\
    merchants.id m = print_orders.merchant_id (UserDashboard.order o) /\
    UserDashboard.merchant o = if merchants.is_active m then Some m else None.
Proof.
  intros Hc Hin. unfold UserDashboard.fetchOrders in Hin.
  apply order_desc_In in Hin. apply in_map_iff in Hin as (po & <- & Hpo).
  cbn [UserDashboard.order UserDashboard.merchant].
  unfold print_orders_select, visible_print_orders in Hpo.
  apply filter_In in Hpo as [Hpo _]. apply filter_In in Hpo as [Hpo _].
  pose proof (print_orders_merchant_id_fkey db Hc po Hpo) as Hfk.
  apply in_map_iff in Hfk as (m & Hid & Hm).
  exists m. refine (conj Hm (conj Hid _)). rewrite <- Hid.
  destruct (merchants.is_active m) eqn:Ea.
  - apply embed_In.
    + unfold visible_merchants. apply NoDup_fmap_filter. exact (merchants_pkey db Hc).
    + apply visible_merchants_In. auto.
  - destruct (embed _ _ _) as [m'|] eqn:E; [|reflexivity]. exfalso.
    apply embed_Some in E as [Hm' Hid']. apply visible_merchants_In in Hm' as [Hm' Ha'].
    assert (m' = m)
      by (apply (NoDup_key_inj merchants.id (db_merchants db) m' m (merchants_pkey db Hc) Hm' Hm);
          congruence).
    congruence.
Qed.

Lemma customer_sees_active_shop_only_witness :
  exists m, In m (db_merchants Campus.open_db) /\
    merchants.id m = print_orders.merchant_id Campus.placed_order /\
    Some (Campus.the_shop true) = if merchants.is_active m then Some m else None.
Proof.
  apply (customer_sees_active_shop_only Campus.open_db (Some Campus.u1)
           {| UserDashboard.order := Campus.placed_order;
              UserDashboard.merchant := Some (Campus.the_shop true) |}).
  - exact (proj2 campus_consistent).
  - vm_compute. left. reflexivity.
Defined.

(** X19.  Whatever sequence of selections the file input reports, the
    chosen file of the order form is either none or a PDF no larger than
    the size limit of the [print-files] bucket; a selection of another
    type or of a larger file is answered with a toast and leaves the
    earlier choice in place. *)
Theorem chosen_file_fits_bucket :
  (forall (events : list (option UserDashboard.File)) (f : UserDashboard.File),
     foldl (fun file ev => fst (UserDashboard.handleFileChange file ev)) None events = Some f ->
     UserDashboard.type f = "application/pdf" /\
     exists limit, storage_buckets.file_size_limit print_files = Some limit /\
                   UserDashboard.size f <= limit) /\
  (forall (file : option UserDashboard.File) (g : UserDashboard.File),
     UserDashboard.type g <> "application/pdf" \/ 52428800 < UserDashboard.size g ->
     fst (UserDashboard.handleFileChange file (Some g)) = file /\
     snd (UserDashboard.handleFileChange file (Some g)) <> None).
Proof.
  split.
  - assert (forall events (st : option UserDashboard.File),
              (forall f, st = Some f ->
                 UserDashboard.type f = "application/pdf" /\ UserDashboard.size f <= 52428800) ->
              forall f, foldl (fun file ev => fst (UserDashboard.handleFileChange file ev)) st events
                        = Some f ->
                 UserDashboard.type f = "application/pdf" /\ UserDashboard.size f <= 52428800)
      as Hinv.
    { induction events as [|ev events IH]; intros st Hst f Hf; [apply Hst; exact Hf|].
      simpl in Hf. eapply IH; [|exact Hf]. intros f' Hf'.
      destruct ev as [g|]; simpl in Hf'; [|auto].
      destruct (String.eqb (UserDashboard.type g) "application/pdf") eqn:Et; simpl in Hf'; [|auto].
      destruct (50 * 1024 * 1024 <? UserDashboard.size g)%Z eqn:Es; simpl in Hf'; [auto|].
      injection Hf' as <-. apply String.eqb_eq in Et. apply Z.ltb_ge in Es. split; [exact Et | lia]. }
    intros events f Hf. destruct (Hinv events None (fun f' Hf' => ltac:(discriminate)) f Hf)
      as [Ht Hs].
    split; [exact Ht|]. exists 52428800. split; [reflexivity | exact Hs].
  - intros file g Hbad. unfold UserDashboard.handleFileChange.
    destruct (String.eqb (UserDashboard.type g) "application/pdf") eqn:Et; simpl.
    + destruct (50 * 1024 * 1024 <? UserDashboard.size g)%Z eqn:Es; simpl.
      * split; [reflexivity | discriminate].
      * exfalso. apply String.eqb_eq in Et. apply Z.ltb_ge in Es.
        destruct Hbad as [H | H]; [contradiction | lia].
    + split; [reflexivity | discriminate].
Qed.

Lemma chosen_file_fits_bucket_witness :
  (UserDashboard.type Cases.pdf = "application/pdf" /\
   exists limit, storage_buckets.file_size_limit print_files = Some limit /\
                 UserDashboard.size Cases.pdf <= limit) /\
  (fst (UserDashboard.handleFileChange (Some Cases.pdf) (Some Cases.scan)) = Some Cases.pdf /\
   snd (UserDashboard.handleFileChange (Some Cases.pdf) (Some Cases.scan)) <> None).
Proof.
  split.
  - apply (proj1 chosen_file_fits_bucket [Some Cases.photo; Some Cases.pdf; None; Some Cases.scan]).
    reflexivity.
  - apply (proj2 chosen_file_fits_bucket (Some Cases.pdf) Cases.scan).
    right. reflexivity.
Defined.

(** ** The header *)




(** ** Creating orders *)

Lemma fileName_first_folder (uid : uuid) (date_now : N) (f : UserDashboard.File) :
  no_slash uid ->
  first_folder storage_foldername (UserDashboard.fileName uid date_now f) = Some uid.
Proof. intros Hu. unfold UserDashboard.fileName. apply (storage_first_folder uid _ Hu). Qed.

(** X21.  An order can only be created in the caller's own name: the
    row a successful INSERT into [print_orders] adds has the caller as
    customer, names an existing profile and an existing merchant
    (active or not), and carries a fresh id; a request without identity
    cannot create an order at all. *)
Theorem print_orders_insert_own (now : timestamptz) (gen : uuid) (db : database)
    (uid : option uuid) (returning : bool) (v : print_orders.values) :
  (forall db', print_orders_insert now gen db uid returning v = Ok db' ->
     exists po, db_print_orders db' = db_print_orders db ++ [po] /\
       uid = Some (print_orders.user_id po) /\
       In (print_orders.user_id po) (profiles.id <$> db_profiles db) /\
       In (print_orders.merchant_id po) (merchants.id <$> db_merchants db) /\
       ~ In (print_orders.id po) (print_orders.id <$> db_print_orders db)) /\
  (uid = None -> exists e, print_orders_insert now gen db uid returning v = Err e).
Proof.
  assert (forall db', print_orders_insert now gen db uid returning v = Ok db' ->
     exists po, db_print_orders db' = db_print_orders db ++ [po] /\
       uid = Some (print_orders.user_id po) /\
       In (print_orders.user_id po) (profiles.id <$> db_profiles db) /\
       In (print_orders.merchant_id po) (merchants.id <$> db_merchants db) /\
       ~ In (print_orders.id po) (print_orders.id <$> db_print_orders db)) as Hok.
  { intros db' H. apply print_orders_insert_Ok_keys in H as (po & _ & Hrls & Hk & ->).
    exists po. split; [reflexivity|].
    unfold insert_allowed in Hrls. apply andb_true_iff in Hrls as [Hrls _].
    apply print_orders_insert_check in Hrls.
    apply print_orders_keys_iff in Hk as (K1 & K2 & K3).
    assert (In po (db_print_orders db ++ [po])) as Hin
      by (apply in_or_app; right; left; reflexivity).
    refine (conj Hrls (conj (K2 po Hin) (conj (K3 po Hin) _))).
    rewrite fmap_app in K1. apply NoDup_app in K1 as (_ & K1 & _).
    intros Hdup. apply (K1 (print_orders.id po)); [apply list_elem_of_In; exact Hdup|].
    simpl. apply list_elem_of_singleton. reflexivity. }
  split; [exact Hok|].
  intros ->. destruct (print_orders_insert now gen db None returning v) as [db'|e] eqn:E; [|eauto].
  destruct (Hok db' eq_refl) as (po & _ & Hu & _). discriminate.
Qed.

Lemma print_orders_insert_own_witness :
  (exists po,
     db_print_orders
       (commit Campus.closed_db
          (print_orders_insert 80 "f6666666-6666-4666-8666-666666666666" Campus.closed_db
             (Some Campus.u2) false
             (Campus.new_order Campus.u2 Campus.shop Omitted Omitted Omitted)))
     = db_print_orders Campus.closed_db ++ [po] /\
     Some Campus.u2 = Some (print_orders.user_id po) /\
     In (print_orders.user_id po) (profiles.id <$> db_profiles Campus.closed_db) /\
     In (print_orders.merchant_id po) (merchants.id <$> db_merchants Campus.closed_db) /\
     ~ In (print_orders.id po) (print_orders.id <$> db_print_orders Campus.closed_db)) /\
  (exists e, print_orders_insert 80 "f6666666-6666-4666-8666-666666666666" Campus.closed_db None
               false (Campus.new_order Campus.u2 Campus.shop Omitted Omitted Omitted) = Err e).
Proof.
  split.
  - apply (proj1 (print_orders_insert_own 80 "f6666666-6666-4666-8666-666666666666"
                    Campus.closed_db (Some Campus.u2) false
                    (Campus.new_order Campus.u2 Campus.shop Omitted Omitted Omitted))).
    vm_compute. reflexivity.
  - apply (proj2 (print_orders_insert_own 80 "f6666666-6666-4666-8666-666666666666"
                    Campus.closed_db None false
                    (Campus.new_order Campus.u2 Campus.shop Omitted Omitted Omitted))).
    reflexivity.
Defined.
